(** * ComDe: skill-segmented replay buffer and skill-sequencing rollout loop

    A shallow embedding of

    - [comde/rl/buffers/buffers/comde_buffer.py]
      ([ComdeBuffer.preprocess_h5py_trajectory], [ComdeBuffer._get_samples]);
    - [comde/evaluations/comde_eval_mlp.py] ([evaluate_comde]).

    Python exceptions are values of [exn] carried by the error monad [res];
    numpy arrays are lists, indexed with stdpp's lookup; key sets are [gset
    string]; the external collaborators (environment, networks, random
    number generator) are parameters of the sections that use them. *)

From Stdlib Require Import ZArith Lia.
From stdpp Require Import base numbers option list gmap strings.

Local Open Scope Z_scope.

(** ** Python exceptions and the error monad *)

Inductive exn : Type :=
  | AssertionError (fill : gset string)   (* "Under qualified dataset. Please fill {...}" *)
  | AssertionError_infos                   (* "undefined info type" *)
  | KeyError (key : string)
  | IndexError
  | ValueError                             (* numpy: "low >= high" *)
  | TypeError                              (* a dataset of an unexpected kind *)
  | ZeroDivisionError.

Inductive res (A : Type) : Type :=
  | Ok (a : A)
  | Raise (e : exn).
Arguments Ok {A} a.
Arguments Raise {A} e.

#[global] Instance res_ret : MRet res := λ A a, Ok a.
#[global] Instance res_bind : MBind res := λ A B f m,
  match m with
  | Ok a => f a
  | Raise e => Raise e
  end.

#[global] Instance res_fmap : FMap res := λ A B f m,
  match m with
  | Ok a => Ok (f a)
  | Raise e => Raise e
  end.

Definition of_option {A : Type} (e : exn) (o : option A) : res A :=
  match o with
  | Some a => Ok a
  | None => Raise e
  end.

(** ** numpy and Python primitives used by the buffer *)

Module Np.

(** [x.astype("i4")]: two's complement wrap-around to 32 bits. *)
Definition astype_i4 (z : Z) : Z := (z + 2 ^ 31) `mod` 2 ^ 32 - 2 ^ 31.

(** A slice bound [k] of [a[k:...]] or [a[...:k]] on a sequence of length
    [len] (CPython's [PySlice_AdjustIndices], step 1): a negative bound counts
    from the end, and the result is clipped to [0..len]. *)
Definition slice_bound (len k : Z) : Z :=
  if k <? 0 then Z.max (k + len) 0 else Z.min k len.

(** Is position [p] inside [a[start:stop]]? *)
Definition in_slice (len start stop : Z) (p : nat) : bool :=
  (slice_bound len start <=? Z.of_nat p) && (Z.of_nat p <? slice_bound len stop).

(** [a[start:stop] = v] for a scalar [v]. *)
Definition slice_assign (start stop : Z) (v : Z) (a : list Z) : list Z :=
  imap (λ p x, if in_slice (Z.of_nat (length a)) start stop p then v else x) a.

(** [np.where(a == v)[0]]: the indices of the entries equal to [v], in
    increasing order. *)
Definition where_eq (v : Z) (a : list Z) : list Z :=
  omap id (imap (λ i x, if decide (x = v) then Some (Z.of_nat i) else None) a).

(** [a[i]] for [i >= 0], raising [IndexError] out of range. *)
Definition getitem {A : Type} (a : list A) (i : nat) : res A :=
  of_option IndexError (a !! i).

(** [a[i] = x] for [i >= 0], raising [IndexError] out of range. *)
Definition setitem {A : Type} (a : list A) (i : nat) (x : A) : res (list A) :=
  if decide (i < length a)%nat then Ok (<[i:=x]> a) else Raise IndexError.

End Np.

(** ** Skill segmentation ([preprocess_h5py_trajectory], lines 116-132) *)

Module Segmentation.

Definition n_aug : Z := 4.

(** Lines 127-132: the loop body
    [augmented_skills_done[timestep - n_aug: timestep + n_aug + 1] = 1]. *)
Definition augment_step (augmented_skills_done : list Z) (timestep : Z) : list Z :=
  Np.slice_assign (timestep - n_aug) (timestep + n_aug + 1) 1 augmented_skills_done.

Definition augment_skills_done (skills_done : list Z) : list Z :=
  let done_times := Np.where_eq 1 skills_done in
  let augmented_skills_done := skills_done in
  fold_left augment_step (Np.astype_i4 <$> done_times) augmented_skills_done.

(** Position [p] lies in the slice written for completion time [t]. *)
Definition marks (len : Z) (p : nat) (t : Z) : bool :=
  Np.in_slice len (t - n_aug) (t + n_aug + 1) p.

(** The start of the skill segment that contains timestep [i]: the last
    index [j <= i] with [j = 0] or [skills_idxs[j-1] != skills_idxs[j]]. *)
Fixpoint seg_start (skills_idxs : list Z) (i : nat) : nat :=
  match i with
  | O => O
  | S j => if decide (skills_idxs !! j ≠ skills_idxs !! S j) then S j
           else seg_start skills_idxs j
  end.

Section FirstObservations.
Context {Obs : Type}.
(** [np.zeros_like], row by row. *)
Variable zeros_like : Obs → Obs.

(** Lines 121-124: one iteration of the scan; the state is
    [(first_obs_pos, first_observations)]. *)
Definition first_obs_step (observations : list Obs) (skills_idxs : list Z)
    (st : nat * list Obs) (i : nat) : res (nat * list Obs) :=
  let '(first_obs_pos, first_observations) := st in
  prev ← Np.getitem skills_idxs (i - 1);
  cur ← Np.getitem skills_idxs i;
  let first_obs_pos := if decide (prev ≠ cur) then i else first_obs_pos in
  o ← Np.getitem observations first_obs_pos;
  first_observations ← Np.setitem first_observations i o;
  mret (first_obs_pos, first_observations).

Fixpoint first_obs_loop (observations : list Obs) (skills_idxs : list Z)
    (range : list nat) (st : nat * list Obs) : res (nat * list Obs) :=
  match range with
  | [] => Ok st
  | i :: range =>
      st ← first_obs_step observations skills_idxs st i;
      first_obs_loop observations skills_idxs range st
  end.

(** Lines 117-124. *)
Definition compute_first_observations (observations : list Obs)
    (skills_idxs : list Z) : res (list Obs) :=
  let traj_len := length observations in
  let first_observations := zeros_like <$> observations in
  o ← Np.getitem observations 0;
  first_observations ← Np.setitem first_observations 0 o;
  let first_obs_pos := 0%nat in
  st ← first_obs_loop observations skills_idxs (seq 1 (traj_len - 1))
         (first_obs_pos, first_observations);
  mret st.2.

(** The scan state [(first_obs_pos, first_observations)] before index [j]
    is visited: the entries below [j] are settled. *)
Definition scanned (observations : list Obs) (skills_idxs : list Z) (j : nat)
    (st : nat * list Obs) : Prop :=
  length st.2 = length observations ∧
  st.1 = seg_start skills_idxs (j - 1) ∧
  (∀ i : nat, (i < j)%nat → st.2 !! i = observations !! seg_start skills_idxs i) ∧
  (∀ i : nat, (0 < i < j)%nat →
     is_Some (skills_idxs !! (i - 1)%nat) ∧ is_Some (skills_idxs !! i)).
End FirstObservations.

End Segmentation.

(** ** Trajectory ingestion ([ComdeBuffer.preprocess_h5py_trajectory]) *)

Module Ingest.

Definition MUST_LOADED_COMPONENTS : gset string :=
  {[ "observations"; "actions"; "skills_idxs"; "skills_order"; "skills_done";
     "source_skills"; "target_skills" ]}.

Section Preprocess.
(** [Vec]: one row of a float dataset (an observation, an action, a skill or
    an embedding vector); [Info]: an entry of the [infos] list. *)
Context {Vec Info : Type}.
Variable zeros_like : Vec → Vec.

(** The members of an h5py file, by kind. *)
Inductive h5 : Type :=
  | H5Rows (rows : list Vec)                    (* 2-D float dataset *)
  | H5Ints (xs : list Z)                        (* 1-D integer dataset *)
  | H5Group (members : list (string * list Vec)) (* group, in [.values()] order *)
  | H5Bytes (s : string)                        (* scalar byte string *)
  | H5Infos (infos : list Info).

Record Dataset : Type := mkDataset {
  observations : list Vec;
  next_observations : list Vec;
  actions : list Vec;
  rewards : list Z;               (* [np.zeros((traj_len,))] *)
  dones : list bool;
  infos : list (list Info);
  source_skills : list Vec;
  target_skills : list (list Vec);
  language_operator : Vec;
  first_observations : list Vec;
  skills_done : list Z;
  skills_order : list Z;
  skills_idxs : list Z;
  rtgs : list Z
}.

(** [trajectory[key]]. *)
Definition get (trajectory : gmap string h5) (key : string) : res h5 :=
  of_option (KeyError key) (trajectory !! key).

Definition as_rows (d : h5) : res (list Vec) :=
  match d with H5Rows rows => Ok rows | _ => Raise TypeError end.
Definition as_ints (d : h5) : res (list Z) :=
  match d with H5Ints xs => Ok xs | _ => Raise TypeError end.
Definition as_group (d : h5) : res (list (string * list Vec)) :=
  match d with H5Group members => Ok members | _ => Raise TypeError end.
Definition as_bytes (d : h5) : res string :=
  match d with H5Bytes s => Ok s | _ => Raise TypeError end.

(** Lines 81-82: the assertion and the set its message prints,
    [trajectory.keys() - self.MUST_LOADED_COMPONENTS]. *)
Definition check_must_loaded (keys : gset string) : res unit :=
  if decide (MUST_LOADED_COMPONENTS ⊆ keys) then Ok ()
  else Raise (AssertionError (keys ∖ MUST_LOADED_COMPONENTS)).

(** [random.choice(seq)]; [r] is the number the generator yields. *)
Definition random_choice {A : Type} (r : nat) (l : list A) : res A :=
  match l with
  | [] => Raise IndexError
  | _ => Np.getitem l (r `mod` length l)%nat
  end.

Definition preprocess_h5py_trajectory (trajectory : gmap string h5)
    (language_guidance_mapping : gmap string (list (string * Vec))) (r : nat)
    : res Dataset :=
  _ ← check_must_loaded (dom trajectory);
  observations ← get trajectory "observations" ≫= as_rows;
  let traj_len := length observations in
  (* next_observations = zeros_like(observations); next_observations[:-1] = observations[1:] *)
  let next_observations :=
    drop 1 observations ++ drop (traj_len - 1) (zeros_like <$> observations) in
  actions ← get trajectory "actions" ≫= as_rows;
  let rewards := replicate traj_len 0 in
  let rtgs := replicate traj_len 0 in
  let dones := replicate traj_len false in
  (* [type(trajectory["infos"]) == List] compares a class with [typing.List]
     and is false for every value *)
  infos ← (if decide ("infos" ∈ dom trajectory) then Raise AssertionError_infos
           else Ok (replicate traj_len []));
  demos ← get trajectory "source_skills" ≫= as_group;
  let source_skills := concat (snd <$> demos) in
  target ← get trajectory "target_skills" ≫= as_rows;
  let target_skills := [target] in
  operator ← get trajectory "operator" ≫= as_bytes;
  phrasings ← of_option (KeyError operator) (language_guidance_mapping !! operator);
  language_guidance_vector ← random_choice r (snd <$> phrasings);
  skills_idxs ← get trajectory "skills_idxs" ≫= as_ints;
  first_observations ←
    Segmentation.compute_first_observations zeros_like observations skills_idxs;
  skills_done ← get trajectory "skills_done" ≫= as_ints;
  let augmented_skills_done := Segmentation.augment_skills_done skills_done in
  skills_order ← get trajectory "skills_order" ≫= as_ints;
  mret {| observations := observations;
          next_observations := next_observations;
          actions := actions;
          rewards := rewards;
          dones := dones;
          infos := infos;
          source_skills := source_skills;
          target_skills := target_skills;
          language_operator := language_guidance_vector;
          first_observations := first_observations;
          skills_done := augmented_skills_done;
          skills_order := skills_order;
          skills_idxs := skills_idxs;
          rtgs := rtgs |}.
End Preprocess.

End Ingest.

(** ** Minibatch sampling ([ComdeBuffer._get_samples], lines 160-173) *)

Module Sampling.

(** [np.random.randint(low, highs)] with an array of upper bounds: numpy
    rejects the call when some [high <= low]; otherwise the k-th result lies
    in the half-open range [low, highs[k]).  [rng k] is the k-th number the
    generator yields. *)
Definition randint (rng : nat → Z) (low : Z) (highs : list Z) : res (list Z) :=
  if decide (Exists (λ high, high <= low) highs) then Raise ValueError
  else Ok (imap (λ k high, low + rng k `mod` (high - low)) highs).

Section GetSamples.
(** The episode class is not part of the modelled files: [len(episode)] and
    [episode.get_numpy_subtrajectory(from_, to_, batch_mode=False)] are
    parameters. *)
Context {Episode Subtraj : Type}.
Variable len : Episode → Z.
Variable get_numpy_subtrajectory : Episode → Z → Z → Subtraj.

(** Lines 160-162. *)
Definition sample_start_idxs (episodes : list Episode) (subseq_len : Z)
    (rng : nat → Z) (batch_inds : list nat) : res (list (Episode * Z)) :=
  episodes ← mapM (Np.getitem episodes) batch_inds;
  let threshes := (λ episode, len episode - subseq_len) <$> episodes in
  start_idxs ← randint rng 0 threshes;
  mret (zip episodes start_idxs).

(** Lines 160-173: the subtrajectories handed to the stacking code. *)
Definition _get_samples (episodes : list Episode) (subseq_len : Z)
    (rng : nat → Z) (batch_inds : list nat) : res (list Subtraj) :=
  chosen ← sample_start_idxs episodes subseq_len rng batch_inds;
  Ok (map (λ '(ep, start_idx),
            get_numpy_subtrajectory ep start_idx (start_idx + subseq_len)) chosen).
End GetSamples.

End Sampling.


(** ** The rollout loop ([evaluate_comde]) *)

Module Rollout.

Section Loop.
(** [W] is the state of everything outside the loop (simulator, network
    parameters, random generators); every call to a collaborator threads it.
    [Obs] is an observation as the environment returns it, [Row] its first
    row [obs[0, ...]]; [Skill] is one skill vector; [Act] an action array;
    [Lang] the language operator. *)
Context {W Obs Row Act Skill Lang Reward Info : Type}.

(** What [low_policy.predict] receives (lines 94-100). *)
Record PolicyInput : Type := mkPolicyInput {
  in_observations : Row;
  in_actions : Act;
  in_skills : Skill;
  in_timesteps : list Z
}.

Record Collaborators : Type := mkCollaborators {
  env_reset : W → W * Obs;
  env_step : W → Act → W * (Obs * Reward * bool * Info);
  seq2seq_predict : W → list Skill → Lang → W * list Skill;
  low_policy_predict : W → PolicyInput → W * Act;
  termination_predict : W → Obs → Obs → Skill → W * bool;
  obs_row0 : Obs → Row;               (* [x[0, ...]] *)
  action_zeros : Act;                 (* [np.zeros((0, action_dim))] *)
  reward_pos : Reward → bool;         (* [r > 0] *)
  reward_zero : Reward;               (* the [0] that [sum] starts from *)
  reward_add : Reward → Reward → Reward
}.

(** The local variables that live across iterations.  [info] is written and
    appended within one iteration and is not kept. *)
Record State : Type := mkState {
  world : W;
  cur_skill_pos : Z;
  timestep : Z;
  done : bool;
  observation : Obs;
  first_obs_of_skill : Obs;
  action : Act;
  skill : Skill;
  ep_observations : list Obs;
  ep_actions : list Act;
  ep_skills : list Skill;
  ep_timesteps : list Z;
  ep_rewards : list Reward;
  ep_dones : list bool;
  ep_infos : list Info
}.

Record Result : Type := mkResult {
  r_ep_observations : list Obs;
  r_ep_actions : list Act;
  r_ep_skills : list Skill;
  r_ep_timesteps : list Z;
  r_ep_rewards : list Reward;
  r_ep_dones : list bool;
  r_ep_infos : list Info;
  r_return : Reward
}.

Variable C : Collaborators.
Variable termination_pred_interval : Z.
Variable use_optimal_next_skill : bool.

(** [a[:, i]] on the skill axis: a negative index counts from the end. *)
Definition skill_at (target_skills : list Skill) (i : Z) : res Skill :=
  let n := Z.of_nat (length target_skills) in
  let i := if i <? 0 then i + n else i in
  if (0 <=? i) && (i <? n) then Np.getitem target_skills (Z.to_nat i)
  else Raise IndexError.

(** [sum(ep_rewards)]. *)
Definition py_sum (rs : list Reward) : Reward :=
  fold_left (reward_add C) rs (reward_zero C).

(** Lines 73-90: the new [(world, cur_skill_pos, skill)]. *)
Definition advance_skill (target_skills : list Skill) (st : State)
    : res (W * Z * Skill) :=
  let n_max_skills := Z.of_nat (length target_skills) in
  let next cur := Z.min (cur + 1) (n_max_skills - 1) in
  if use_optimal_next_skill then
    let maybe_skill_done :=
      match last (ep_rewards st) with
      | Some r => reward_pos C r
      | None => false
      end in
    if maybe_skill_done then
      let cur_skill_pos := next (cur_skill_pos st) in
      skill ← skill_at target_skills cur_skill_pos;
      Ok (world st, cur_skill_pos, skill)
    else Ok (world st, cur_skill_pos st, skill st)
  else
    if decide (termination_pred_interval = 0) then Raise ZeroDivisionError
    else if decide ((timestep st - 1) `mod` termination_pred_interval = 0) then
      let '(w, maybe_skill_done) :=
        termination_predict C (world st) (observation st)
          (first_obs_of_skill st) (skill st) in
      if (maybe_skill_done : bool) then
        let cur_skill_pos := next (cur_skill_pos st) in
        skill ← skill_at target_skills cur_skill_pos;
        Ok (w, cur_skill_pos, skill)
      else Ok (w, cur_skill_pos st, skill st)
    else Ok (world st, cur_skill_pos st, skill st).

(** Lines 62-67 and 92-99: the arguments of [low_policy.predict], built from
    the variables as they are at the head of the iteration. *)
Definition policy_input (st : State) : res PolicyInput :=
  let input_observations := ep_observations st in
  let input_timesteps := ep_timesteps st in
  let input_actions := action st in
  let input_skills := ep_skills st in
  o ← of_option IndexError (last input_observations);
  s ← of_option IndexError (last input_skills);
  Ok {| in_observations := obs_row0 C o;
        in_actions := input_actions;
        in_skills := s;
        in_timesteps := input_timesteps |}.

(** Lines 62-113: one iteration of [while not done]. *)
Definition loop_body (target_skills : list Skill) (st : State) : res State :=
  let ep_actions := ep_actions st ++ [action st] in
  '(w, cur_skill_pos, skill) ← advance_skill target_skills st;
  input ← policy_input st;
  let '(w, action) := low_policy_predict C w input in
  let '(w, (observation, reward, done, info)) := env_step C w action in
  let timestep := timestep st + 1 in
  Ok {| world := w;
        cur_skill_pos := cur_skill_pos;
        timestep := timestep;
        done := done;
        observation := observation;
        first_obs_of_skill := first_obs_of_skill st;
        action := action;
        skill := skill;
        ep_observations := ep_observations st ++ [observation];
        ep_actions := <[(length ep_actions - 1)%nat := action]> ep_actions;
        ep_skills := ep_skills st ++ [skill];
        ep_timesteps := ep_timesteps st ++ [timestep];
        ep_rewards := ep_rewards st ++ [reward];
        ep_dones := ep_dones st ++ [done];
        ep_infos := ep_infos st ++ [info] |}.

(** Lines 26-59: everything before the loop; returns the [target_skills] the
    loop reads and the variables at the head of the first iteration. *)
Definition setup (w : W) (source_skills : list Skill) (language_guidance : Lang)
    : res (list Skill * State) :=
  let cur_skill_pos := 0 in
  let timestep := 0 in
  let done := false in
  let '(w, target_skills) := seq2seq_predict C w source_skills language_guidance in
  let target_skills := source_skills in   (* line 40, "Debugging" *)
  let '(w, observation) := env_reset C w in
  let first_obs_of_skill := observation in
  let action := action_zeros C in
  skill ← skill_at target_skills cur_skill_pos;
  Ok (target_skills,
      {| world := w;
         cur_skill_pos := cur_skill_pos;
         timestep := timestep;
         done := done;
         observation := observation;
         first_obs_of_skill := first_obs_of_skill;
         action := action;
         skill := skill;
         ep_observations := [observation];
         ep_actions := [];
         ep_skills := [skill];
         ep_timesteps := [timestep];
         ep_rewards := [];
         ep_dones := [];
         ep_infos := [] |}).

(** [while not done: body]; [None] when the fuel runs out first. *)
Fixpoint while_not_done (fuel : nat) (target_skills : list Skill) (st : State)
    : option (res State) :=
  if done st then Some (Ok st)
  else match fuel with
       | O => None
       | S fuel =>
           match loop_body target_skills st with
           | Ok st => while_not_done fuel target_skills st
           | Raise e => Some (Raise e)
           end
       end.

(** The variables after [n] iterations of the body. *)
Fixpoint iterations (n : nat) (target_skills : list Skill) (st : State)
    : res State :=
  match n with
  | O => Ok st
  | S n => iterations n target_skills st ≫= loop_body target_skills
  end.

Definition result_of (st : State) : Result :=
  {| r_ep_observations := ep_observations st;
     r_ep_actions := ep_actions st;
     r_ep_skills := ep_skills st;
     r_ep_timesteps := ep_timesteps st;
     r_ep_rewards := ep_rewards st;
     r_ep_dones := ep_dones st;
     r_ep_infos := ep_infos st;
     r_return := py_sum (ep_rewards st) |}.

Definition evaluate_comde (fuel : nat) (w : W) (source_skills : list Skill)
    (language_guidance : Lang) : option (res Result) :=
  match setup w source_skills language_guidance with
  | Raise e => Some (Raise e)
  | Ok (target_skills, st) =>
      match while_not_done fuel target_skills st with
      | None => None
      | Some (Raise e) => Some (Raise e)
      | Some (Ok st) => Some (Ok (result_of st))
      end
  end.

(** *** Vocabulary of the statements about the loop *)

(** The histories at the head of iteration [n]. *)
Record history (n : nat) (st : State) : Prop := mkHistory {
  h_observations : length (ep_observations st) = S n;
  h_skills : length (ep_skills st) = S n;
  h_timesteps : ep_timesteps st = Z.of_nat <$> seq 0 (S n);
  h_timestep : timestep st = Z.of_nat n;
  h_actions : length (ep_actions st) = n;
  h_rewards : length (ep_rewards st) = n;
  h_dones : length (ep_dones st) = n;
  h_infos : length (ep_infos st) = n;
  h_last_observation : last (ep_observations st) = Some (observation st);
  h_last_skill : last (ep_skills st) = Some (skill st);
  h_last_action :
    last (ep_actions st) = (if decide (n = 0%nat) then None else Some (action st));
  h_first_action : n = 0%nat → action st = action_zeros C
}.


Definition index_in_range (target_skills : list Skill) (st : State) : Prop :=
  0 <= cur_skill_pos st <= Z.of_nat (length target_skills) - 1.

End Loop.


End Rollout.

(** ** Scripted collaborators and records, used to run the model *)

Module Scripted.

(** A trajectory file with five timesteps and three skill segments. *)
Definition trajectory : gmap string (@Ingest.h5 Z unit) :=
  list_to_map
    [("observations", Ingest.H5Rows [10; 11; 12; 13; 14]);
     ("actions", Ingest.H5Rows [1; 1; 1; 1; 1]);
     ("skills_idxs", Ingest.H5Ints [7; 7; 8; 8; 9]);
     ("skills_order", Ingest.H5Ints [7; 8; 9]);
     ("skills_done", Ingest.H5Ints [0; 1; 0; 1; 1]);
     ("source_skills", Ingest.H5Group [("0", [1; 2]); ("1", [3])]);
     ("target_skills", Ingest.H5Rows [3; 2; 1]);
     ("operator", Ingest.H5Bytes "reverse")]%string.

Definition language_guidance : gmap string (list (string * Z)) :=
  {[ "reverse"%string := [("a"%string, 100); ("b"%string, 101)] ]}.

Definition dataset : @Ingest.Dataset Z unit :=
  {| Ingest.observations := [10; 11; 12; 13; 14];
     Ingest.next_observations := [11; 12; 13; 14; 0];
     Ingest.actions := [1; 1; 1; 1; 1];
     Ingest.rewards := [0; 0; 0; 0; 0];
     Ingest.dones := [false; false; false; false; false];
     Ingest.infos := [[]; []; []; []; []];
     Ingest.source_skills := [1; 2; 3];
     Ingest.target_skills := [[3; 2; 1]];
     Ingest.language_operator := 101;
     Ingest.first_observations := [10; 10; 12; 12; 14];
     Ingest.skills_done := [1; 1; 1; 1; 1];
     Ingest.skills_order := [7; 8; 9];
     Ingest.skills_idxs := [7; 7; 8; 8; 9];
     Ingest.rtgs := [0; 0; 0; 0; 0] |}.

(** An environment that counts its steps in the world state, observes
    [obs0] at reset and [100 + t] after step [t], pays reward 1 on every
    other step (on the first step when [first] holds) and is done after
    [horizon] steps; a translator that reverses the source skills; a policy
    that answers the skill it is given; a detector that never fires. *)
Definition collaborators (obs0 : Z) (horizon : nat) (first : bool)
    : @Rollout.Collaborators nat Z Z Z Z unit Z unit :=
  {| Rollout.env_reset := λ _, (0%nat, obs0);
     Rollout.env_step := λ w a,
       (S w, (100 + Z.of_nat (S w),
              (if Nat.even w then (if first then 1 else 0)
               else (if first then 0 else 1)),
              bool_decide (horizon ≤ S w)%nat, ()));
     Rollout.seq2seq_predict := λ w source_skills _, (w, reverse source_skills);
     Rollout.low_policy_predict := λ w input, (w, Rollout.in_skills input);
     Rollout.termination_predict := λ w _ _ _, (w, false);
     Rollout.obs_row0 := λ o, o;
     Rollout.action_zeros := 0;
     Rollout.reward_pos := λ r, 0 <? r;
     Rollout.reward_zero := 0;
     Rollout.reward_add := Z.add |}.

(** The variables of the scripted rollout at the head of the first
    iteration, after one iteration and after three. *)
Definition initial_state (obs0 : Z) : @Rollout.State nat Z Z Z Z unit :=
  {| Rollout.world := 0%nat;
     Rollout.cur_skill_pos := 0;
     Rollout.timestep := 0;
     Rollout.done := false;
     Rollout.observation := obs0;
     Rollout.first_obs_of_skill := obs0;
     Rollout.action := 0;
     Rollout.skill := 1;
     Rollout.ep_observations := [obs0];
     Rollout.ep_actions := [];
     Rollout.ep_skills := [1];
     Rollout.ep_timesteps := [0];
     Rollout.ep_rewards := [];
     Rollout.ep_dones := [];
     Rollout.ep_infos := [] |}.

Definition state_after_one (obs0 : Z) : @Rollout.State nat Z Z Z Z unit :=
  {| Rollout.world := 1%nat;
     Rollout.cur_skill_pos := 0;
     Rollout.timestep := 1;
     Rollout.done := false;
     Rollout.observation := 101;
     Rollout.first_obs_of_skill := obs0;
     Rollout.action := 1;
     Rollout.skill := 1;
     Rollout.ep_observations := [obs0; 101];
     Rollout.ep_actions := [1];
     Rollout.ep_skills := [1; 1];
     Rollout.ep_timesteps := [0; 1];
     Rollout.ep_rewards := [0];
     Rollout.ep_dones := [false];
     Rollout.ep_infos := [()] |}.

Definition state_after_three : @Rollout.State nat Z Z Z Z unit :=
  {| Rollout.world := 3%nat;
     Rollout.cur_skill_pos := 1;
     Rollout.timestep := 3;
     Rollout.done := true;
     Rollout.observation := 103;
     Rollout.first_obs_of_skill := 7;
     Rollout.action := 1;
     Rollout.skill := 2;
     Rollout.ep_observations := [7; 101; 102; 103];
     Rollout.ep_actions := [1; 1; 1];
     Rollout.ep_skills := [1; 1; 1; 2];
     Rollout.ep_timesteps := [0; 1; 2; 3];
     Rollout.ep_rewards := [0; 1; 0];
     Rollout.ep_dones := [false; false; true];
     Rollout.ep_infos := [(); (); ()] |}.

End Scripted.

(** ** Loading a set of trajectories ([ComdeBuffer.add_episodes_from_h5py]) *)

Module Buffer.

(** [min(xs)] and [max(xs)] on a list of integers: [ValueError] on []. *)
Definition py_min (xs : list Z) : res Z :=
  match xs with
  | [] => Raise ValueError
  | x :: xs => Ok (foldl Z.min x xs)
  end.

Definition py_max (xs : list Z) : res Z :=
  match xs with
  | [] => Raise ValueError
  | x :: xs => Ok (foldl Z.max x xs)
  end.

Section AddEpisodes.
Context {Vec Info Episode : Type}.
Variable zeros_like : Vec → Vec.
(** The episode class and the parent buffer class are not part of the
    modelled files; what the method calls on them is a parameter:
    [SourceTargetSkillContainedEpisode()] followed by [add_from_dict],
    [len(episode)], the attributes [n_source_skills] and [n_target_skills],
    [set_zeropaddings(n_padding, max_possible_skills)], and the effect of
    [self.add(episode)] on [self.episodes]. *)
Variable add_from_dict : @Ingest.Dataset Vec Info → Episode.
Variable len : Episode → Z.
Variable n_source_skills : Episode → Z.
Variable n_target_skills : Episode → Z.
Variable set_zeropaddings : Z → Z → Episode → Episode.
Variable add : list Episode → Episode → list Episode.

(** The attributes of the buffer the method reads and writes. *)
Record State : Type := mkState {
  episodes : list Episode;
  episode_lengths : list Z;
  min_episode_length : Z;
  max_episode_length : Z;
  subseq_len : Z
}.

(** Lines 57-63, with [self.add] and the append to [self.episode_lengths]. *)
Definition add_episode (st : State) (episode : Episode) : State :=
  {| episodes := add (episodes st) episode;
     episode_lengths := episode_lengths st ++ [len episode];
     min_episode_length := min_episode_length st;
     max_episode_length := max_episode_length st;
     subseq_len := subseq_len st |}.

(** Lines 56-63: the loop over the trajectory files, the [k]-th of which
    draws its phrasing with [rng k].  An exception leaves the attributes as
    the completed iterations wrote them. *)
Fixpoint load_trajectories (language_guidance : gmap string (list (string * Vec)))
    (rng : nat → nat) (k : nat) (trajectories : list (gmap string (@Ingest.h5 Vec Info)))
    (st : State) : State * res unit :=
  match trajectories with
  | [] => (st, Ok ())
  | trajectory :: trajectories =>
      match Ingest.preprocess_h5py_trajectory zeros_like trajectory
              language_guidance (rng k) with
      | Raise e => (st, Raise e)
      | Ok dataset =>
          load_trajectories language_guidance rng (S k) trajectories
            (add_episode st (add_from_dict dataset))
      end
  end.

(** Lines 65-74. *)
Definition finish_loading (st : State) : State * res unit :=
  match py_min (episode_lengths st) with
  | Raise e => (st, Raise e)
  | Ok lo =>
      let st := {| episodes := episodes st;
                   episode_lengths := episode_lengths st;
                   min_episode_length := lo;
                   max_episode_length := max_episode_length st;
                   subseq_len := subseq_len st |} in
      match py_max (episode_lengths st) with
      | Raise e => (st, Raise e)
      | Ok hi =>
          let st := {| episodes := episodes st;
                       episode_lengths := episode_lengths st;
                       min_episode_length := min_episode_length st;
                       max_episode_length := hi;
                       subseq_len := subseq_len st |} in
          match py_max (n_source_skills <$> episodes st) with
          | Raise e => (st, Raise e)
          | Ok max_source =>
              match py_max (n_target_skills <$> episodes st) with
              | Raise e => (st, Raise e)
              | Ok max_target =>
                  let max_possible_skills := Z.max max_source max_target in
                  ({| episodes :=
                        set_zeropaddings (subseq_len st) max_possible_skills
                          <$> episodes st;
                      episode_lengths := episode_lengths st;
                      min_episode_length := min_episode_length st;
                      max_episode_length := max_episode_length st;
                      subseq_len := subseq_len st |}, Ok ())
              end
          end
      end
  end.

(** The method on the files already opened: [trajectories] are the h5py
    files of [paths["trajectory"]], [language_guidance] the unpickled
    mapping.  Returns the attributes afterwards and the outcome. *)
Definition add_episodes_from_h5py
    (language_guidance : gmap string (list (string * Vec))) (rng : nat → nat)
    (trajectories : list (gmap string (@Ingest.h5 Vec Info))) (st : State)
    : State * res unit :=
  match load_trajectories language_guidance rng 0 trajectories st with
  | (st, Raise e) => (st, Raise e)
  | (st, Ok _) => finish_loading st
  end.

End AddEpisodes.

End Buffer.

(** ** Vocabulary of the further statements *)

Module Vocabulary.

(** Position [p] is written by the slice of completion index [i] in an array
    of length [L]: the window [i-4 .. i+4] when [i >= 4]; when [i < 4] the
    negative lower bound counts from the end, leaving [L+i-4 .. i+4]. *)
Definition window_written (L i p : Z) : Prop :=
  if decide (i < Segmentation.n_aug)
  then L + i - Segmentation.n_aug <= p <= i + Segmentation.n_aug
  else i - Segmentation.n_aug <= p <= i + Segmentation.n_aug.

(** The entries of [l] are 0 or 1. *)
Definition binary (l : list Z) : Prop := Forall (λ x, x = 0 ∨ x = 1) l.


Section DatasetOf.
Context {Vec Info : Type}.
Variable zeros_like : Vec → Vec.

(** The dataset line 134 builds from the members of the file [obs], [acts],
    [idxs], [order], [sdone], [demos], [target], the phrasing [v] drawn and
    the first observations [fo] scanned. *)
Definition dataset_of (obs acts : list Vec) (idxs order sdone : list Z)
    (demos : list (string * list Vec)) (target : list Vec) (v : Vec)
    (fo : list Vec) : @Ingest.Dataset Vec Info :=
  {| Ingest.observations := obs;
     Ingest.next_observations :=
       drop 1 obs ++ drop (length obs - 1) (zeros_like <$> obs);
     Ingest.actions := acts;
     Ingest.rewards := replicate (length obs) 0;
     Ingest.dones := replicate (length obs) false;
     Ingest.infos := replicate (length obs) [];
     Ingest.source_skills := concat demos.*2;
     Ingest.target_skills := [target];
     Ingest.language_operator := v;
     Ingest.first_observations := fo;
     Ingest.skills_done := Segmentation.augment_skills_done sdone;
     Ingest.skills_order := order;
     Ingest.skills_idxs := idxs;
     Ingest.rtgs := replicate (length obs) 0 |}.
End DatasetOf.

Section Ingested.
Context {Vec Info : Type}.
Variable zeros_like : Vec → Vec.

(** [datasets] are what the first [length datasets] files of
    [trajectories] ingest to, the [j]-th with the draw [rng (k + j)]. *)
Definition ingested (language_guidance : gmap string (list (string * Vec)))
    (rng : nat → nat) (k : nat)
    (trajectories : list (gmap string (@Ingest.h5 Vec Info)))
    (datasets : list (@Ingest.Dataset Vec Info)) : Prop :=
  (length datasets ≤ length trajectories)%nat ∧
  ∀ (j : nat) ds, datasets !! j = Some ds →
    ∃ trajectory, trajectories !! j = Some trajectory ∧
      Ingest.preprocess_h5py_trajectory zeros_like trajectory language_guidance
        (rng (k + j)%nat) = Ok ds.
End Ingested.

Section RolloutWords.
Context {W Obs Row Act Skill Lang Reward Info : Type}.

(** The collaborators [C] with another termination detector. *)
Definition with_termination
    (C : @Rollout.Collaborators W Obs Row Act Skill Lang Reward Info)
    (predict : W → Obs → Obs → Skill → W * bool)
    : @Rollout.Collaborators W Obs Row Act Skill Lang Reward Info :=
  {| Rollout.env_reset := Rollout.env_reset C;
     Rollout.env_step := Rollout.env_step C;
     Rollout.seq2seq_predict := Rollout.seq2seq_predict C;
     Rollout.low_policy_predict := Rollout.low_policy_predict C;
     Rollout.termination_predict := predict;
     Rollout.obs_row0 := Rollout.obs_row0 C;
     Rollout.action_zeros := Rollout.action_zeros C;
     Rollout.reward_pos := Rollout.reward_pos C;
     Rollout.reward_zero := Rollout.reward_zero C;
     Rollout.reward_add := Rollout.reward_add C |}.

(** The collaborators [C] with another reading of [reward > 0]. *)
Definition with_reward_pos
    (C : @Rollout.Collaborators W Obs Row Act Skill Lang Reward Info)
    (positive : Reward → bool)
    : @Rollout.Collaborators W Obs Row Act Skill Lang Reward Info :=
  {| Rollout.env_reset := Rollout.env_reset C;
     Rollout.env_step := Rollout.env_step C;
     Rollout.seq2seq_predict := Rollout.seq2seq_predict C;
     Rollout.low_policy_predict := Rollout.low_policy_predict C;
     Rollout.termination_predict := Rollout.termination_predict C;
     Rollout.obs_row0 := Rollout.obs_row0 C;
     Rollout.action_zeros := Rollout.action_zeros C;
     Rollout.reward_pos := positive;
     Rollout.reward_zero := Rollout.reward_zero C;
     Rollout.reward_add := Rollout.reward_add C |}.

(** [skills] walks through [source_skills] in order: it is
    [source_skills[idxs[t]]] for indices [idxs] that start at 0, end at
    [last_index] and go up by 0 or 1 from one entry to the next. *)
Definition skills_in_order (source_skills skills : list Skill) (last_index : Z)
    : Prop :=
  ∃ idxs : list Z,
    length idxs = length skills ∧
    idxs !! 0%nat = Some 0 ∧
    last idxs = Some last_index ∧
    (∀ (t : nat) a b, idxs !! t = Some a → idxs !! S t = Some b → a <= b <= a + 1) ∧
    (∀ (t : nat) i, idxs !! t = Some i →
       0 <= i ∧ skills !! t = source_skills !! Z.to_nat i ∧
       is_Some (source_skills !! Z.to_nat i)).

(** The skill variable is the source skill at the skill index. *)
Definition skill_matches (target_skills : list Skill)
    (st : @Rollout.State W Obs Act Skill Reward Info) : Prop :=
  Rollout.index_in_range target_skills st ∧
  Rollout.skill_at target_skills (Rollout.cur_skill_pos st) = Ok (Rollout.skill st).
End RolloutWords.

End Vocabulary.

(** ** A scripted episode class and buffer, used to run the loader *)

Module ScriptedBuffer.

(** A second trajectory file, with three timesteps and two skill segments. *)
Definition trajectory2 : gmap string (@Ingest.h5 Z unit) :=
  list_to_map
    [("observations", Ingest.H5Rows [20; 21; 22]);
     ("actions", Ingest.H5Rows [2; 2; 2]);
     ("skills_idxs", Ingest.H5Ints [1; 1; 2]);
     ("skills_order", Ingest.H5Ints [1; 2]);
     ("skills_done", Ingest.H5Ints [0; 0; 1]);
     ("source_skills", Ingest.H5Group [("0", [5])]);
     ("target_skills", Ingest.H5Rows [5; 6; 7; 8]);
     ("operator", Ingest.H5Bytes "reverse")]%string.

Definition dataset2 : @Ingest.Dataset Z unit :=
  {| Ingest.observations := [20; 21; 22];
     Ingest.next_observations := [21; 22; 0];
     Ingest.actions := [2; 2; 2];
     Ingest.rewards := [0; 0; 0];
     Ingest.dones := [false; false; false];
     Ingest.infos := [[]; []; []];
     Ingest.source_skills := [5];
     Ingest.target_skills := [[5; 6; 7; 8]];
     Ingest.language_operator := 101;
     Ingest.first_observations := [20; 20; 22];
     Ingest.skills_done := [0; 1; 1];
     Ingest.skills_order := [1; 2];
     Ingest.skills_idxs := [1; 1; 2];
     Ingest.rtgs := [0; 0; 0] |}.

(** An episode that remembers its length, its skill counts and the padding
    it was given. *)
Record episode : Type := mkEpisode {
  e_len : Z;
  e_n_source : Z;
  e_n_target : Z;
  e_padding : option (Z * Z)
}.

Definition add_from_dict (ds : @Ingest.Dataset Z unit) : episode :=
  {| e_len := Z.of_nat (length (Ingest.observations ds));
     e_n_source := Z.of_nat (length (Ingest.source_skills ds));
     e_n_target := Z.of_nat (length (concat (Ingest.target_skills ds)));
     e_padding := None |}.

Definition set_zeropaddings (n_padding max_possible_skills : Z) (ep : episode)
    : episode :=
  {| e_len := e_len ep;
     e_n_source := e_n_source ep;
     e_n_target := e_n_target ep;
     e_padding := Some (n_padding, max_possible_skills) |}.

Definition add (episodes : list episode) (ep : episode) : list episode :=
  episodes ++ [ep].

(** A fresh buffer with [subseq_len = 3]. *)
Definition fresh : @Buffer.State episode :=
  {| Buffer.episodes := [];
     Buffer.episode_lengths := [];
     Buffer.min_episode_length := 0;
     Buffer.max_episode_length := 0;
     Buffer.subseq_len := 3 |}.

(** The buffer after loading [Scripted.trajectory] and [trajectory2]. *)
Definition loaded : @Buffer.State episode :=
  {| Buffer.episodes :=
       [ {| e_len := 5; e_n_source := 3; e_n_target := 3;
            e_padding := Some (3, 4) |};
         {| e_len := 3; e_n_source := 1; e_n_target := 4;
            e_padding := Some (3, 4) |} ];
     Buffer.episode_lengths := [5; 3];
     Buffer.min_episode_length := 3;
     Buffer.max_episode_length := 5;
     Buffer.subseq_len := 3 |}.

Definition add_episodes_from_h5py :=
  Buffer.add_episodes_from_h5py (λ _ : Z, 0) add_from_dict e_len e_n_source
    e_n_target set_zeropaddings add Scripted.language_guidance (λ _, 3%nat).

End ScriptedBuffer.

(* ================================================================== *)
(** * Properties *)

(** ** The dilation of [skills_done] *)

Section DilationFacts.
Import Np Segmentation.

Lemma length_slice_assign start stop v a :
  length (slice_assign start stop v a) = length a.
Proof. unfold slice_assign. apply length_imap. Qed.

Lemma lookup_slice_assign start stop v a (p : nat) :
  slice_assign start stop v a !! p
  = (λ x, if in_slice (Z.of_nat (length a)) start stop p then v else x) <$> a !! p.
Proof. unfold slice_assign. apply list_lookup_imap. Qed.

Lemma length_augment_fold ts a :
  length (fold_left augment_step ts a) = length a.
Proof.
  revert a. induction ts as [|t ts IH]; intros a; simpl; [done|].
  rewrite IH. apply length_slice_assign.
Qed.

Lemma lookup_augment_fold ts a (p : nat) x :
  a !! p = Some x →
  fold_left augment_step ts a !! p
  = Some (if existsb (marks (Z.of_nat (length a)) p) ts then 1 else x).
Proof.
  revert a x. induction ts as [|t ts IH]; intros a x Hp; simpl; [done|].
  assert (Hstep : augment_step a t !! p
                  = Some (if marks (Z.of_nat (length a)) p t then 1 else x)).
  { unfold augment_step. rewrite lookup_slice_assign, Hp. done. }
  rewrite (IH _ _ Hstep). unfold augment_step at 1.
  rewrite length_slice_assign.
  destruct (marks _ p t); simpl; [|done].
  by destruct (existsb _ ts).
Qed.

Lemma elem_of_where_eq v a t :
  t ∈ where_eq v a ↔ ∃ i : nat, t = Z.of_nat i ∧ a !! i = Some v.
Proof.
  unfold where_eq. rewrite list_elem_of_omap. split.
  - intros (o & Ho & Hid). simpl in Hid. subst o.
    apply elem_of_lookup_imap in Ho as (i & x & Hx & Hi).
    case_decide; [|done]. simplify_eq. eauto.
  - intros (i & -> & Hi). exists (Some (Z.of_nat i)). split; [|done].
    apply elem_of_lookup_imap. exists i, v. split; [|done].
    by rewrite decide_True.
Qed.

Lemma length_augment_skills_done a :
  length (augment_skills_done a) = length a.
Proof. unfold augment_skills_done. apply length_augment_fold. Qed.

Lemma lookup_augment_skills_done a (p : nat) x :
  a !! p = Some x →
  augment_skills_done a !! p
  = Some (if existsb (marks (Z.of_nat (length a)) p) (astype_i4 <$> where_eq 1 a)
          then 1 else x).
Proof. intros Hp. unfold augment_skills_done. by apply lookup_augment_fold. Qed.

Lemma astype_i4_small z : - 2 ^ 31 <= z < 2 ^ 31 → astype_i4 z = z.
Proof.
  intros Hz. unfold astype_i4.
  rewrite Z.mod_small; lia.
Qed.

(** A completion time at distance at least [n_aug] from the start marks
    exactly its window, clipped at the end of the array. *)
Lemma marks_inner len (p : nat) t :
  n_aug <= t →
  marks len p t = true ↔ t - n_aug <= Z.of_nat p <= t + n_aug ∧ Z.of_nat p < len.
Proof.
  intros Ht. unfold marks, in_slice, slice_bound, n_aug in *.
  rewrite andb_true_iff, Z.leb_le, Z.ltb_lt.
  destruct (Z.ltb_spec (t - 4) 0), (Z.ltb_spec (t + 4 + 1) 0); lia.
Qed.

(** Whatever the completion time, a marked position lies in its window. *)
Lemma marks_window len (p : nat) t :
  0 <= t → marks len p t = true →
  t - n_aug <= Z.of_nat p <= t + n_aug ∧ Z.of_nat p < len.
Proof.
  intros Ht. unfold marks, in_slice, slice_bound, n_aug in *.
  rewrite andb_true_iff, Z.leb_le, Z.ltb_lt.
  destruct (Z.ltb_spec (t - 4) 0), (Z.ltb_spec (t + 4 + 1) 0); lia.
Qed.

(** An entry that is 1 stays 1. *)
Lemma augment_keeps_one a (p : nat) :
  a !! p = Some 1 → augment_skills_done a !! p = Some 1.
Proof.
  intros Hp. rewrite (lookup_augment_skills_done _ _ _ Hp).
  by destruct (existsb _ _).
Qed.

(** An entry is kept or becomes 1. *)
Lemma augment_keeps_or_marks a (p : nat) x :
  a !! p = Some x →
  augment_skills_done a !! p = Some x ∨ augment_skills_done a !! p = Some 1.
Proof.
  intros Hp. rewrite (lookup_augment_skills_done _ _ _ Hp).
  destruct (existsb _ _); auto.
Qed.

End DilationFacts.

Section DilationClaims.
Import Np Segmentation.

Lemma existsb_marks_iff len (p : nat) a :
  existsb (marks len p) (astype_i4 <$> where_eq 1 a) = true
  ↔ ∃ i : nat, a !! i = Some 1 ∧ marks len p (astype_i4 (Z.of_nat i)) = true.
Proof.
  rewrite existsb_exists. split.
  - intros (t & Hin & Hm). apply list_elem_of_In, list_elem_of_fmap in Hin.
    destruct Hin as (t' & -> & Hin). apply elem_of_where_eq in Hin.
    destruct Hin as (i & -> & Hi). eauto.
  - intros (i & Hi & Hm). exists (astype_i4 (Z.of_nat i)). split; [|done].
    apply list_elem_of_In, list_elem_of_fmap. exists (Z.of_nat i). split; [done|].
    apply elem_of_where_eq. eauto.
Qed.

(** Away from the first [n_aug] positions the window of a completion index
    is written in full, clipped at the end of the array. *)
Lemma augment_inner_window a (i p : nat) :
  Z.of_nat (length a) < 2 ^ 31 →
  a !! i = Some 1 → (4 ≤ i)%nat → (i - 4 ≤ p ≤ i + 4)%nat → (p < length a)%nat →
  augment_skills_done a !! p = Some 1.
Proof.
  intros Hlen Hi Hi4 Hp HpL.
  destruct (lookup_lt_is_Some_2 a p HpL) as [x Hx].
  rewrite (lookup_augment_skills_done _ _ _ Hx).
  replace (existsb _ _) with true; [done|]. symmetry.
  apply existsb_marks_iff. exists i. split; [done|].
  apply lookup_lt_Some in Hi.
  rewrite astype_i4_small by lia.
  apply marks_inner; unfold n_aug; lia.
Qed.

(** A position outside the window of every completion index keeps its
    value. *)
Lemma augment_outside_windows a (p : nat) x :
  Z.of_nat (length a) < 2 ^ 31 →
  a !! p = Some x →
  (∀ i : nat, a !! i = Some 1 → ¬ (i - 4 ≤ p ≤ i + 4)%nat) →
  augment_skills_done a !! p = Some x.
Proof.
  intros Hlen Hx Hout.
  rewrite (lookup_augment_skills_done _ _ _ Hx).
  destruct (existsb _ _) eqn:E; [|done].
  apply existsb_marks_iff in E as (i & Hi & Hm).
  pose proof (lookup_lt_Some _ _ _ Hi) as HiL.
  rewrite astype_i4_small in Hm by lia.
  apply marks_window in Hm; [|lia].
  exfalso. apply (Hout i Hi). unfold n_aug in Hm. lia.
Qed.

(** C9: a single completion at index [k], [4 <= k <= L - 5], is dilated to
    exactly the window [k-4 .. k+4]: the augmented array has the length of
    the input, is 1 on that window and 0 at every other index.  (The code
    casts the completion indices to 32-bit integers, so the array has fewer
    than 2^31 entries.) *)
Theorem C9_single_done_window (skills_done : list Z) (k : nat) :
  Z.of_nat (length skills_done) < 2 ^ 31 →
  (4 ≤ k)%nat → (k + 5 ≤ length skills_done)%nat →
  (∀ i : nat, (i < length skills_done)%nat →
     skills_done !! i = Some (if decide (i = k) then 1 else 0)) →
  length (augment_skills_done skills_done) = length skills_done ∧
  ∀ p : nat, (p < length skills_done)%nat →
    augment_skills_done skills_done !! p
    = Some (if decide (k - 4 ≤ p ≤ k + 4)%nat then 1 else 0).
Proof.
  intros Hlen Hk4 HkL Hsingle. split; [apply length_augment_skills_done|].
  intros p HpL.
  assert (Hk : skills_done !! k = Some 1).
  { rewrite Hsingle by lia. by rewrite decide_True. }
  case_decide as Hwin.
  - by apply (augment_inner_window _ k).
  - apply augment_outside_windows; [done| |].
    + rewrite Hsingle by done. rewrite decide_False; [done|lia].
    + intros i Hi Hin.
      pose proof (lookup_lt_Some _ _ _ Hi) as HiL.
      rewrite Hsingle in Hi by done.
      case_decide; [subst i; lia | discriminate].
Qed.

Lemma C9_single_done_window_witness :
  length (augment_skills_done [0;0;0;0;0;1;0;0;0;0;0;0]) = 12%nat ∧
  ∀ p : nat, (p < 12)%nat →
    augment_skills_done [0;0;0;0;0;1;0;0;0;0;0;0] !! p
    = Some (if decide (5 - 4 ≤ p ≤ 5 + 4)%nat then 1 else 0).
Proof.
  apply (C9_single_done_window [0;0;0;0;0;1;0;0;0;0;0;0] 5).
  - reflexivity.
  - lia.
  - simpl. lia.
  - intros i Hi. simpl in Hi.
    do 12 (destruct i as [|i]; [reflexivity|]). lia.
Defined.

(** C3 (defect in the code): for a completion index below [n_aug] the lower
    slice bound [timestep - n_aug] is negative, Python counts it from the end
    of the array and the slice is empty: the window of index 2 in an array of
    length 10 is left unmarked. *)
Theorem C3_low_index_window_unmarked :
  augment_skills_done [0;0;1;0;0;0;0;0;0;0] = [0;0;1;0;0;0;0;0;0;0].
Proof. reflexivity. Qed.

(** C5, as stated, fails: a second application widens the window. *)
Lemma C5_not_idempotent :
  augment_skills_done (augment_skills_done [0;0;0;0;0;0;0;0;0;0;1;0;0;0;0;0;0;0;0;0])
  ≠ augment_skills_done [0;0;0;0;0;0;0;0;0;0;1;0;0;0;0;0;0;0;0;0].
Proof. vm_compute. discriminate. Qed.

(** C5, amended: a second application keeps the length, keeps every 1 of the
    first (already-1 stays 1) and changes an entry only by setting it to 1. *)
Theorem C5_second_application_extends (skills_done : list Z) (p : nat) (x : Z) :
  augment_skills_done skills_done !! p = Some x →
  length (augment_skills_done (augment_skills_done skills_done))
  = length (augment_skills_done skills_done) ∧
  (x = 1 → augment_skills_done (augment_skills_done skills_done) !! p = Some 1) ∧
  (augment_skills_done (augment_skills_done skills_done) !! p = Some x ∨
   augment_skills_done (augment_skills_done skills_done) !! p = Some 1).
Proof.
  intros Hp. split; [apply length_augment_skills_done|]. split.
  - intros ->. by apply augment_keeps_one.
  - by apply augment_keeps_or_marks.
Qed.

Lemma C5_second_application_extends_witness :
  length (augment_skills_done (augment_skills_done [0;0;0;0;0;0;0;0;0;0;1;0;0;0;0;0;0;0;0;0]))
  = length (augment_skills_done [0;0;0;0;0;0;0;0;0;0;1;0;0;0;0;0;0;0;0;0]) ∧
  (1 = 1 →
   augment_skills_done (augment_skills_done [0;0;0;0;0;0;0;0;0;0;1;0;0;0;0;0;0;0;0;0])
     !! 6%nat = Some 1) ∧
  (augment_skills_done (augment_skills_done [0;0;0;0;0;0;0;0;0;0;1;0;0;0;0;0;0;0;0;0])
     !! 6%nat = Some 1 ∨
   augment_skills_done (augment_skills_done [0;0;0;0;0;0;0;0;0;0;1;0;0;0;0;0;0;0;0;0])
     !! 6%nat = Some 1).
Proof.
  apply (C5_second_application_extends
           [0;0;0;0;0;0;0;0;0;0;1;0;0;0;0;0;0;0;0;0] 6 1).
  reflexivity.
Defined.

End DilationClaims.

(** ** The error monad and the array primitives *)

Lemma bind_Ok {A B : Type} (m : res A) (f : A → res B) (b : B) :
  m ≫= f = Ok b → ∃ a, m = Ok a ∧ f a = Ok b.
Proof. destruct m as [a|e]; simpl; [eauto|discriminate]. Qed.

Lemma getitem_Ok {A : Type} (a : list A) (i : nat) (x : A) :
  Np.getitem a i = Ok x ↔ a !! i = Some x.
Proof.
  unfold Np.getitem, of_option. destruct (a !! i); split; congruence.
Qed.

Lemma setitem_Ok {A : Type} (a : list A) (i : nat) (x : A) (a' : list A) :
  Np.setitem a i x = Ok a' ↔ (i < length a)%nat ∧ a' = <[i:=x]> a.
Proof.
  unfold Np.setitem. case_decide; split.
  - intros [= <-]. done.
  - intros [_ ->]. done.
  - discriminate.
  - intros [? _]. lia.
Qed.

Ltac inv_bind H :=
  let a := fresh "a" in
  let Ha := fresh "H" a in
  apply bind_Ok in H as (a & Ha & H).

(** ** First observations *)

Section FirstObservationFacts.
Import Segmentation.
Context {Obs : Type} (zeros_like : Obs → Obs).
Implicit Types (observations fo : list Obs) (skills_idxs : list Z).

Lemma first_obs_step_scanned observations skills_idxs (j : nat) st st' :
  (0 < j)%nat →
  scanned observations skills_idxs j st →
  first_obs_step observations skills_idxs st j = Ok st' →
  scanned observations skills_idxs (S j) st'.
Proof.
  intros Hj (Hlen & Hpos & Hfo & Hidx) Hstep.
  destruct st as [pos fo]. simpl in *. unfold first_obs_step in Hstep.
  inv_bind Hstep. inv_bind Hstep. inv_bind Hstep. inv_bind Hstep.
  injection Hstep as <-.
  apply getitem_Ok in Ha, Ha0, Ha1.
  apply setitem_Ok in Ha2 as [Hlt ->].
  destruct j as [|j']; [lia|]. simpl in Ha, Hpos. rewrite Nat.sub_0_r in Ha, Hpos.
  assert (Hstart : (if decide (a ≠ a0) then S j' else pos)
                   = seg_start skills_idxs (S j')).
  { simpl. rewrite Ha, Ha0. subst pos.
    destruct (decide (a ≠ a0)) as [Hne|Heq].
    - rewrite decide_True; [done|congruence].
    - rewrite decide_False; [done|]. intros Hne. apply Hne. f_equal.
      by destruct (decide (a = a0)). }
  rewrite Hstart in *.
  split; [|split; [|split]]; simpl.
  - by rewrite length_insert.
  - done.
  - intros i Hi. destruct (decide (i = S j')) as [->|Hne].
    + rewrite list_lookup_insert_eq by done. done.
    + rewrite list_lookup_insert_ne by done. apply Hfo. lia.
  - intros i Hi. destruct (decide (i = S j')) as [->|Hne].
    + simpl. rewrite Nat.sub_0_r. eauto.
    + apply Hidx. lia.
Qed.

Lemma first_obs_loop_scanned observations skills_idxs (n j : nat) st st' :
  (0 < j)%nat →
  scanned observations skills_idxs j st →
  first_obs_loop observations skills_idxs (seq j n) st = Ok st' →
  scanned observations skills_idxs (j + n) st'.
Proof.
  revert j st. induction n as [|n IH]; intros j st Hj Hinv Hloop; simpl in Hloop.
  - injection Hloop as <-. by rewrite Nat.add_0_r.
  - inv_bind Hloop.
    replace (j + S n)%nat with (S j + n)%nat by lia.
    apply (IH (S j) a); [lia| |done].
    by apply (first_obs_step_scanned _ _ j st).
Qed.

Lemma compute_first_observations_scanned observations skills_idxs fo :
  compute_first_observations zeros_like observations skills_idxs = Ok fo →
  (0 < length observations)%nat ∧
  ∃ pos, scanned observations skills_idxs (length observations) (pos, fo).
Proof.
  unfold compute_first_observations. intros H.
  inv_bind H. inv_bind H. inv_bind H. injection H as <-.
  apply getitem_Ok in Ha. apply setitem_Ok in Ha0 as [Hlt ->].
  rewrite length_fmap in Hlt. split; [done|].
  destruct a1 as [pos fo]. exists pos. simpl.
  replace (length observations) with (1 + (length observations - 1))%nat at 1 by lia.
  apply (first_obs_loop_scanned _ _ _ _ _ _ (Nat.lt_0_1)) in Ha1; [exact Ha1|].
  split; [|split; [|split]]; simpl.
  - by rewrite length_insert, length_fmap.
  - done.
  - intros i Hi. assert (i = 0%nat) as -> by lia. simpl.
    rewrite list_lookup_insert_eq by (by rewrite length_fmap). done.
  - intros i Hi. lia.
Qed.

Lemma seg_start_le skills_idxs (i : nat) : (seg_start skills_idxs i ≤ i)%nat.
Proof. induction i as [|i IH]; simpl; [done|]. case_decide; lia. Qed.

Lemma seg_start_same skills_idxs (i j : nat) :
  (seg_start skills_idxs i ≤ j ≤ i)%nat → skills_idxs !! j = skills_idxs !! i.
Proof.
  induction i as [|i IH]; simpl.
  - intros Hj. by assert (j = 0%nat) as -> by lia.
  - case_decide as Hne.
    + intros Hj. by assert (j = S i) as -> by lia.
    + intros Hj. destruct (decide (j = S i)) as [->|Hji]; [done|].
      rewrite IH by lia. by destruct (decide (skills_idxs !! i = skills_idxs !! S i)).
Qed.

Lemma seg_start_boundary skills_idxs (i : nat) :
  seg_start skills_idxs i = 0%nat ∨
  skills_idxs !! (seg_start skills_idxs i - 1)%nat
  ≠ skills_idxs !! seg_start skills_idxs i.
Proof.
  induction i as [|i IH]; simpl; [by left|].
  case_decide as Hne; [|done]. right. simpl. by rewrite Nat.sub_0_r.
Qed.

End FirstObservationFacts.

(** Splits a successful run of [preprocess_h5py_trajectory] into its steps:
    every field read was present and of the expected kind. *)
Ltac inv_preprocess H :=
  unfold Ingest.preprocess_h5py_trajectory in H;
  repeat (inv_bind H; cbv beta zeta in H);
  injection H as <-; simpl;
  repeat match goal with
  | H : Ingest.get _ _ ≫= _ = Ok _ |- _ =>
      let d := fresh "d" in let Hd := fresh "Hd" in
      apply bind_Ok in H as (d & Hd & H); unfold Ingest.get, of_option in Hd;
      destruct d; try discriminate; injection H as ->
  end;
  repeat match goal with
  | H : match ?o with Some _ => _ | None => _ end = Ok _ |- _ =>
      destruct o eqn:?; [injection H as ->|discriminate]
  end.

Section FirstObservationClaims.
Import Segmentation Ingest.
Context {Vec Info : Type} (zeros_like : Vec → Vec).

Lemma first_observations_spec (obs : list Vec) (idx : list Z) (fo : list Vec) :
  compute_first_observations zeros_like obs idx = Ok fo →
  length fo = length obs ∧
  (∃ o, fo !! 0%nat = Some o ∧ obs !! 0%nat = Some o) ∧
  (∀ i : nat, (0 < i < length obs)%nat →
     is_Some (idx !! (i - 1)%nat) ∧ is_Some (idx !! i) ∧
     (idx !! i = idx !! (i - 1)%nat → fo !! i = fo !! (i - 1)%nat) ∧
     (idx !! i ≠ idx !! (i - 1)%nat → fo !! i = obs !! i)) ∧
  (∀ i : nat, (i < length obs)%nat →
     ∃ s : nat, (s ≤ i)%nat ∧ fo !! i = obs !! s ∧
       (∀ j : nat, (s ≤ j ≤ i)%nat → idx !! j = idx !! i) ∧
       (s = 0%nat ∨ idx !! (s - 1)%nat ≠ idx !! s)).
Proof.
  intros H. apply compute_first_observations_scanned in H as (Hpos & pos & Hsc).
  destruct Hsc as (Hlen & _ & Hfo & Hidx). simpl in *.
  split; [done|]. split; [|split].
  - destruct (lookup_lt_is_Some_2 obs 0 Hpos) as [o Ho].
    exists o. split; [|done]. by rewrite (Hfo 0%nat Hpos).
  - intros i Hi. destruct (Hidx i Hi) as [Hprev Hcur].
    split; [done|]. split; [done|].
    destruct i as [|j]; [lia|]. simpl. rewrite Nat.sub_0_r.
    rewrite (Hfo (S j)) by lia. rewrite (Hfo j) by lia. simpl.
    split; intros Heq.
    + rewrite decide_False; [done|]. intros Hne. by apply Hne.
    + rewrite decide_True; [done|]. intros Hne. by apply Heq.
  - intros i Hi. exists (seg_start idx i).
    split; [apply seg_start_le|]. split; [by apply Hfo|].
    split; [apply seg_start_same | apply seg_start_boundary].
Qed.

Lemma preprocess_first_observations (trajectory : gmap string (@h5 Vec Info))
    (language_guidance_mapping : gmap string (list (string * Vec))) (r : nat)
    (ds : Dataset) :
  preprocess_h5py_trajectory zeros_like trajectory language_guidance_mapping r = Ok ds →
  trajectory !! "observations" = Some (H5Rows (observations ds)) ∧
  trajectory !! "skills_idxs" = Some (H5Ints (skills_idxs ds)) ∧
  compute_first_observations zeros_like (observations ds) (skills_idxs ds)
  = Ok (first_observations ds).
Proof.
  intros H. inv_preprocess H.
  done.
Qed.

(** The [skills_done] of an ingested trajectory is the dilation of the raw
    array of the file. *)
Lemma preprocess_skills_done (trajectory : gmap string (@h5 Vec Info))
    (language_guidance_mapping : gmap string (list (string * Vec))) (r : nat)
    (ds : Dataset) :
  preprocess_h5py_trajectory zeros_like trajectory language_guidance_mapping r = Ok ds →
  ∃ raw, trajectory !! "skills_done" = Some (H5Ints raw) ∧
         skills_done ds = augment_skills_done raw.
Proof.
  intros H. inv_preprocess H.
  eauto.
Qed.

(** C8: in every ingested trajectory [first_observations] has the length of
    [observations], starts with [observations[0]], repeats its previous entry
    where the skill index is unchanged and takes [observations[i]] where it
    changes; each entry is the observation at the start [s] of the skill
    segment containing its timestep (all skill indices on [s..i] are equal,
    and [s] is 0 or a boundary). *)
Theorem C8_first_observations (trajectory : gmap string (@h5 Vec Info))
    (language_guidance_mapping : gmap string (list (string * Vec))) (r : nat)
    (ds : Dataset) :
  preprocess_h5py_trajectory zeros_like trajectory language_guidance_mapping r = Ok ds →
  let obs := observations ds in
  let fo := first_observations ds in
  let idx := skills_idxs ds in
  length fo = length obs ∧
  (∃ o, fo !! 0%nat = Some o ∧ obs !! 0%nat = Some o) ∧
  (∀ i : nat, (0 < i < length obs)%nat →
     is_Some (idx !! (i - 1)%nat) ∧ is_Some (idx !! i) ∧
     (idx !! i = idx !! (i - 1)%nat → fo !! i = fo !! (i - 1)%nat) ∧
     (idx !! i ≠ idx !! (i - 1)%nat → fo !! i = obs !! i)) ∧
  (∀ i : nat, (i < length obs)%nat →
     ∃ s : nat, (s ≤ i)%nat ∧ fo !! i = obs !! s ∧
       (∀ j : nat, (s ≤ j ≤ i)%nat → idx !! j = idx !! i) ∧
       (s = 0%nat ∨ idx !! (s - 1)%nat ≠ idx !! s)).
Proof.
  intros H. apply preprocess_first_observations in H as (_ & _ & H).
  by apply first_observations_spec.
Qed.

End FirstObservationClaims.

Lemma C8_first_observations_witness :
  let obs := Ingest.observations Scripted.dataset in
  let fo := Ingest.first_observations Scripted.dataset in
  let idx := Ingest.skills_idxs Scripted.dataset in
  length fo = length obs ∧
  (∃ o, fo !! 0%nat = Some o ∧ obs !! 0%nat = Some o) ∧
  (∀ i : nat, (0 < i < length obs)%nat →
     is_Some (idx !! (i - 1)%nat) ∧ is_Some (idx !! i) ∧
     (idx !! i = idx !! (i - 1)%nat → fo !! i = fo !! (i - 1)%nat) ∧
     (idx !! i ≠ idx !! (i - 1)%nat → fo !! i = obs !! i)) ∧
  (∀ i : nat, (i < length obs)%nat →
     ∃ s : nat, (s ≤ i)%nat ∧ fo !! i = obs !! s ∧
       (∀ j : nat, (s ≤ j ≤ i)%nat → idx !! j = idx !! i) ∧
       (s = 0%nat ∨ idx !! (s - 1)%nat ≠ idx !! s)).
Proof.
  apply (C8_first_observations (λ _, 0) Scripted.trajectory
           Scripted.language_guidance 3 Scripted.dataset).
  vm_compute. reflexivity.
Defined.

(** ** The schema assertion *)

Section SchemaClaims.
Import Ingest.

(** The set the assertion prints holds the keys of the record that are not
    required: no required field is ever named. *)
Lemma check_must_loaded_names keys fill :
  check_must_loaded keys = Raise (AssertionError fill) →
  ¬ MUST_LOADED_COMPONENTS ⊆ keys ∧
  fill = keys ∖ MUST_LOADED_COMPONENTS ∧
  fill ## MUST_LOADED_COMPONENTS.
Proof.
  unfold check_must_loaded. case_decide; [discriminate|].
  intros [= Hfill]. subst fill. split; [done|]. split; [done|].
  by apply disjoint_difference_l1.
Qed.

(** C6 (defect in the code): the message of the assertion prints
    [trajectory.keys() - MUST_LOADED_COMPONENTS], the difference taken the
    wrong way round.  For the record without ["actions"] the error names
    ["operator"], a field that is present and not required, while the missing
    required field is ["actions"].  Ingestion also fails with every required
    field present: without ["operator"] (a [KeyError]) and with ["infos"]
    (whose type check never holds). *)
Theorem C6_assertion_names_present_fields :
  preprocess_h5py_trajectory (λ _, 0) (delete "actions"%string Scripted.trajectory)
    Scripted.language_guidance 0
  = Raise (AssertionError {[ "operator"%string ]}) ∧
  MUST_LOADED_COMPONENTS ∖ dom (delete "actions"%string Scripted.trajectory)
  = {[ "actions"%string ]} ∧
  preprocess_h5py_trajectory (λ _, 0) (delete "operator"%string Scripted.trajectory)
    Scripted.language_guidance 0
  = Raise (KeyError "operator") ∧
  preprocess_h5py_trajectory (λ _, 0)
    (<["infos"%string := H5Infos [()]]> Scripted.trajectory)
    Scripted.language_guidance 0
  = Raise AssertionError_infos.
Proof. repeat split; vm_compute; reflexivity. Qed.

End SchemaClaims.

(** ** Sampling subsequence starts *)

Section SamplingClaims.
Import Sampling.
Context {Episode Subtraj : Type} (len : Episode → Z).
Variable get_numpy_subtrajectory : Episode → Z → Z → Subtraj.

Lemma randint_Raise rng low highs :
  Exists (λ high, high <= low) highs → randint rng low highs = Raise ValueError.
Proof. intros H. unfold randint. by rewrite decide_True. Qed.

Lemma randint_Ok rng low highs :
  Forall (λ high, low < high) highs →
  randint rng low highs = Ok (imap (λ k high, low + rng k `mod` (high - low)) highs).
Proof.
  intros H. unfold randint. rewrite decide_False; [done|].
  rewrite Exists_exists. intros (high & Hin & Hle).
  rewrite Forall_forall in H. specialize (H _ Hin). lia.
Qed.

(** C4, amended: [len(episode) - subseq_len] is the exclusive upper bound of
    [np.random.randint(0, .)].  The draw, and with it [_get_samples], fails
    with numpy's [ValueError] as soon as one chosen episode has
    [len(episode) <= subseq_len]; otherwise every start index lies in
    [0 .. len(episode) - subseq_len - 1], and every index of that range is
    drawn by some generator. *)
Theorem C4_start_indices_half_open (episodes : list Episode) (subseq_len : Z)
    (batch_inds : list nat) (chosen : list Episode) :
  mapM (Np.getitem episodes) batch_inds = Ok chosen →
  (Exists (λ ep, len ep - subseq_len <= 0) chosen →
   ∀ rng,
     sample_start_idxs len episodes subseq_len rng batch_inds = Raise ValueError ∧
     _get_samples len get_numpy_subtrajectory episodes subseq_len rng batch_inds
     = Raise ValueError) ∧
  (Forall (λ ep, 0 < len ep - subseq_len) chosen →
   (∀ rng, ∃ start_idxs,
      sample_start_idxs len episodes subseq_len rng batch_inds
      = Ok (zip chosen start_idxs) ∧
      length start_idxs = length chosen ∧
      ∀ (k : nat) ep, chosen !! k = Some ep →
        ∃ s, start_idxs !! k = Some s ∧ 0 <= s < len ep - subseq_len) ∧
   (∀ (k : nat) ep s, chosen !! k = Some ep → 0 <= s < len ep - subseq_len →
      ∃ rng start_idxs,
        sample_start_idxs len episodes subseq_len rng batch_inds
        = Ok (zip chosen start_idxs) ∧ start_idxs !! k = Some s)).
Proof.
  intros Hchosen. unfold _get_samples, sample_start_idxs. rewrite Hchosen. simpl.
  split; [|intros Hall; split].
  - intros Hex rng. rewrite randint_Raise; [done|].
    apply Exists_fmap. eapply Exists_impl; [exact Hex|]. done.
  - intros rng. rewrite randint_Ok by (apply Forall_fmap; exact Hall). simpl.
    eexists. split; [reflexivity|].
    split; [by rewrite length_imap, length_fmap|].
    intros k ep Hk. rewrite list_lookup_imap, list_lookup_fmap, Hk. simpl.
    eexists. split; [reflexivity|].
    rewrite Forall_lookup in Hall. specialize (Hall _ _ Hk). simpl in Hall.
    rewrite Z.sub_0_r.
    pose proof (Z.mod_pos_bound (rng k) (len ep - subseq_len) Hall). lia.
  - intros k ep s Hk Hs. exists (λ _, s).
    rewrite randint_Ok by (apply Forall_fmap; exact Hall). simpl.
    eexists. split; [reflexivity|].
    rewrite list_lookup_imap, list_lookup_fmap, Hk. simpl.
    rewrite Z.sub_0_r, Z.mod_small by lia. done.
Qed.

End SamplingClaims.

(** C4, as stated, fails: an episode exactly [subseq_len] long cannot be
    sampled, and the largest valid start, [len(episode) - subseq_len], is
    never drawn. *)
Lemma C4_inclusive_range_fails :
  (∀ rng, Sampling.sample_start_idxs (λ ep : Z, ep) [10] 10 rng [0%nat]
          = Raise ValueError) ∧
  (∀ rng, Sampling.sample_start_idxs (λ ep : Z, ep) [12] 10 rng [0%nat]
          ≠ Ok [(12, 2)]).
Proof.
  split; intros rng; [reflexivity|].
  unfold Sampling.sample_start_idxs. simpl.
  intros [= H]. pose proof (Z.mod_pos_bound (rng 0%nat) (12 - 10 - 0)). lia.
Qed.

Lemma C4_start_indices_half_open_witness :
  ∃ start_idxs,
    Sampling.sample_start_idxs (λ ep : Z, ep) [12; 30] 10 (λ _, 7)
      [1%nat; 0%nat; 1%nat]
    = Ok (zip [30; 12; 30] start_idxs) ∧
    length start_idxs = 3%nat ∧
    ∀ (k : nat) ep, [30; 12; 30] !! k = Some ep →
      ∃ s, start_idxs !! k = Some s ∧ 0 <= s < ep - 10.
Proof.
  refine (proj1 (proj2 (C4_start_indices_half_open (λ ep : Z, ep)
                          (λ (ep from_ to_ : Z), (ep, from_, to_)) [12; 30] 10
                          [1%nat; 0%nat; 1%nat] [30; 12; 30] _) _) (λ _, 7)).
  - reflexivity.
  - repeat constructor.
Defined.

(** ** The rollout loop *)

Section RolloutFacts.
Import Rollout.
Context {W Obs Row Act Skill Lang Reward Info : Type}.
Variable C : @Collaborators W Obs Row Act Skill Lang Reward Info.
Variable interval : Z.
Variable oracle : bool.

Abbreviation state := (@State W Obs Act Skill Reward Info).
Abbreviation body := (loop_body C interval oracle).
Abbreviation steps := (iterations C interval oracle).
Abbreviation while := (while_not_done C interval oracle).

Lemma loop_body_Ok (ts : list Skill) (st st' : state) :
  body ts st = Ok st' →
  ∃ w cur sk input w1 a w2 o r d i,
    advance_skill C interval oracle ts st = Ok (w, cur, sk) ∧
    policy_input C st = Ok input ∧
    low_policy_predict C w input = (w1, a) ∧
    env_step C w1 a = (w2, (o, r, d, i)) ∧
    st' = {| world := w2;
             cur_skill_pos := cur;
             timestep := timestep st + 1;
             done := d;
             observation := o;
             first_obs_of_skill := first_obs_of_skill st;
             action := a;
             skill := sk;
             ep_observations := ep_observations st ++ [o];
             ep_actions :=
               <[(length (ep_actions st ++ [action st]) - 1)%nat := a]>
                 (ep_actions st ++ [action st]);
             ep_skills := ep_skills st ++ [sk];
             ep_timesteps := ep_timesteps st ++ [timestep st + 1];
             ep_rewards := ep_rewards st ++ [r];
             ep_dones := ep_dones st ++ [d];
             ep_infos := ep_infos st ++ [i] |}.
Proof.
  unfold loop_body.
  destruct (advance_skill C interval oracle ts st) as [[[w cur] sk]|e] eqn:Hadv;
    simpl; [|discriminate].
  destruct (policy_input C st) as [input|e] eqn:Hin; simpl; [|discriminate].
  destruct (low_policy_predict C w input) as [w1 a] eqn:Hpol.
  destruct (env_step C w1 a) as [w2 [[[o r] d] i]] eqn:Henv.
  intros [= <-]. by exists w, cur, sk, input, w1, a, w2, o, r, d, i.
Qed.

Lemma history_body (ts : list Skill) (n : nat) (st st' : state) :
  history C n st → body ts st = Ok st' → history C (S n) st'.
Proof.
  intros [] Hbody.
  apply loop_body_Ok in Hbody
    as (w & cur & sk & input & w1 & a & w2 & o & r & d & i & _ & _ & _ & _ & ->).
  split; simpl; rewrite ?length_insert, ?length_app; simpl; try lia.
  - rewrite h_timesteps0, h_timestep0.
    change (Z.of_nat 0 :: Z.of_nat 1 :: list_fmap nat Z Z.of_nat (seq 2 n))
      with (Z.of_nat <$> seq 0 (S (S n))).
    rewrite (seq_S (S n)), fmap_app. f_equal. simpl. f_equal. lia.
  - apply last_snoc.
  - apply last_snoc.
  - rewrite last_lookup, length_insert, length_app. simpl.
    replace (pred (length (ep_actions st) + 1)) with (length (ep_actions st)) by lia.
    replace (length (ep_actions st) + 1 - 1)%nat with (length (ep_actions st)) by lia.
    apply list_lookup_insert_eq. rewrite length_app. simpl. lia.
Qed.

Lemma history_setup (w : W) (source_skills : list Skill) (lang : Lang)
    (ts : list Skill) (st : state) :
  setup C w source_skills lang = Ok (ts, st) →
  history C 0 st ∧ done st = false ∧ ts = source_skills ∧ cur_skill_pos st = 0.
Proof.
  unfold setup.
  destruct (seq2seq_predict C w source_skills lang) as [w1 predicted].
  destruct (env_reset C w1) as [w2 o].
  destruct (skill_at source_skills 0) as [sk|e]; simpl; [|discriminate].
  intros [= <- <-]. split; [|done]. by split.
Qed.

(** Whatever the translator predicts, the loop reads the source skills and
    starts with the first of them. *)
Lemma setup_reads_source_skills (w : W) (source_skills : list Skill) (lang : Lang)
    (ts : list Skill) (st : state) :
  setup C w source_skills lang = Ok (ts, st) →
  ts = source_skills ∧ skill_at source_skills 0 = Ok (skill st).
Proof.
  unfold setup.
  destruct (seq2seq_predict C w source_skills lang) as [w1 predicted].
  destruct (env_reset C w1) as [w2 o].
  destruct (skill_at source_skills 0) as [sk|e]; simpl; [|discriminate].
  by intros [= <- <-].
Qed.

Lemma steps_S_front (n : nat) (ts : list Skill) (st : state) :
  steps (S n) ts st = body ts st ≫= steps n ts.
Proof.
  induction n as [|n IH].
  - simpl. by destruct (body ts st).
  - change (steps (S (S n)) ts st) with (steps (S n) ts st ≫= body ts).
    rewrite IH. destruct (body ts st) as [st1|e]; simpl; [|done]. done.
Qed.

Lemma history_steps (ts : list Skill) (n m : nat) (st st' : state) :
  history C m st → steps n ts st = Ok st' → history C (n + m) st'.
Proof.
  revert st'. induction n as [|n IH]; intros st' Hh Hs; simpl in *.
  - by injection Hs as <-.
  - inv_bind Hs. eapply history_body; [|exact Hs]. by apply IH.
Qed.


(** If the environment reports [done] after [n] iterations, the loop returns
    once it has fuel for [n] iterations. *)
Lemma while_not_done_returns (n : nat) (ts : list Skill) (st st' : state) :
  steps n ts st = Ok st' → done st' = true →
  ∀ fuel : nat, (n ≤ fuel)%nat → ∃ st'', while fuel ts st = Some (Ok st'').
Proof.
  revert st. induction n as [|n IH]; intros st Hs Hd fuel Hfuel.
  - simpl in Hs. injection Hs as ->. exists st'.
    destruct fuel; simpl; by rewrite Hd.
  - rewrite steps_S_front in Hs. inv_bind Hs.
    destruct fuel as [|fuel]; [lia|]. simpl.
    destruct (done st); [eauto|]. rewrite Ha.
    apply (IH a Hs Hd). lia.
Qed.

End RolloutFacts.

Section SkillIndexFacts.
Import Rollout.
Context {W Obs Row Act Skill Lang Reward Info : Type}.
Variable C : @Collaborators W Obs Row Act Skill Lang Reward Info.
Variable interval : Z.

Abbreviation state := (@State W Obs Act Skill Reward Info).

Lemma skill_at_in_range (ts : list Skill) (i : Z) :
  0 <= i <= Z.of_nat (length ts) - 1 → ∃ sk, skill_at ts i = Ok sk.
Proof.
  intros Hi. unfold skill_at.
  destruct (Z.ltb_spec i 0) as [?|_]; [lia|].
  destruct (Z.leb_spec 0 i) as [_|?]; [|lia].
  destruct (Z.ltb_spec i (Z.of_nat (length ts))) as [Hlt|?]; [|lia]. simpl.
  destruct (lookup_lt_is_Some_2 ts (Z.to_nat i)) as [sk Hsk]; [lia|].
  exists sk. by apply getitem_Ok.
Qed.


(** In either mode the index moves by at most one, upwards, and stays below
    the number of skills. *)
Lemma advance_skill_range (oracle : bool) (ts : list Skill) (st : state) w cur sk :
  index_in_range ts st →
  advance_skill C interval oracle ts st = Ok (w, cur, sk) →
  cur_skill_pos st <= cur <= cur_skill_pos st + 1 ∧
  cur <= Z.of_nat (length ts) - 1.
Proof.
  unfold index_in_range, advance_skill. intros Hr H.
  repeat match type of H with
  | (if ?b then _ else _) = _ => destruct b
  | (let '(_, _) := ?p in _) = _ => destruct p
  | _ ≫= _ = Ok _ => inv_bind H
  end; try discriminate; injection H as _ <- _; lia.
Qed.

Lemma body_index_range (oracle : bool) (ts : list Skill) (st st' : state) :
  index_in_range ts st → loop_body C interval oracle ts st = Ok st' →
  index_in_range ts st' ∧ cur_skill_pos st <= cur_skill_pos st'.
Proof.
  intros Hr Hb.
  apply loop_body_Ok in Hb
    as (w & cur & sk & input & w1 & a & w2 & o & r & d & i & Hadv & _ & _ & _ & ->).
  apply (advance_skill_range _ _ _ _ _ _ Hr) in Hadv.
  unfold index_in_range in *. simpl. lia.
Qed.

Lemma steps_index_range (oracle : bool) (ts : list Skill) (n : nat) (st st' : state) :
  index_in_range ts st → iterations C interval oracle n ts st = Ok st' →
  index_in_range ts st' ∧ cur_skill_pos st <= cur_skill_pos st'.
Proof.
  revert st'. induction n as [|n IH]; intros st' Hr Hs; simpl in Hs.
  - injection Hs as <-. split; [done|lia].
  - inv_bind Hs. destruct (IH _ Hr Ha) as [Hr' Hle].
    destruct (body_index_range _ _ _ _ Hr' Hs) as [Hr'' Hle']. split; [done|lia].
Qed.

Lemma setup_index_range (w : W) (source_skills : list Skill) (lang : Lang)
    (ts : list Skill) (st : state) :
  setup C w source_skills lang = Ok (ts, st) → index_in_range ts st.
Proof.
  intros H. pose proof (history_setup _ _ _ _ _ _ H) as (_ & _ & -> & Hcur).
  unfold index_in_range. rewrite Hcur.
  unfold setup in H.
  destruct (seq2seq_predict C w source_skills lang) as [w1 predicted].
  destruct (env_reset C w1) as [w2 o].
  destruct (skill_at source_skills 0) as [sk|e] eqn:Hsk; [|discriminate].
  unfold skill_at in Hsk. simpl in Hsk.
  destruct (Z.ltb_spec 0 (Z.of_nat (length source_skills))); [lia|discriminate].
Qed.



Lemma steps_add (oracle : bool) (ts : list Skill) (k n : nat) (st : state) :
  iterations C interval oracle (k + n) ts st
  = iterations C interval oracle n ts st ≫= iterations C interval oracle k ts.
Proof.
  induction k as [|k IH]; simpl.
  - by destruct (iterations C interval oracle n ts st).
  - rewrite IH. by destruct (iterations C interval oracle n ts st).
Qed.

End SkillIndexFacts.



Section RolloutClaims.
Import Rollout.
Context {W Obs Row Act Skill Lang Reward Info : Type}.
Variable C : @Collaborators W Obs Row Act Skill Lang Reward Info.
Variable interval : Z.


(** C2, amended: at the head of iteration [n] the histories hold [n + 1]
    observations, skills and timesteps, and [low_policy.predict] receives the
    whole timestep history [0 .. n], but only the first row of the most
    recent observation, only the most recent skill entry, and only the
    previous action (the empty array before the first step, afterwards the
    last entry of [ep_actions]). *)
Theorem C2_policy_sees_latest_entries (oracle : bool) (w : W)
    (source_skills : list Skill) (lang : Lang) ts st0 (n : nat) st :
  setup C w source_skills lang = Ok (ts, st0) →
  iterations C interval oracle n ts st0 = Ok st →
  ∃ o s,
    length (ep_observations st) = S n ∧ last (ep_observations st) = Some o ∧
    length (ep_skills st) = S n ∧ last (ep_skills st) = Some s ∧
    ep_timesteps st = Z.of_nat <$> seq 0 (S n) ∧
    length (ep_actions st) = n ∧
    last (ep_actions st) = (if decide (n = 0%nat) then None else Some (action st)) ∧
    (n = 0%nat → action st = action_zeros C) ∧
    let input := {| in_observations := obs_row0 C o;
                    in_actions := action st;
                    in_skills := s;
                    in_timesteps := Z.of_nat <$> seq 0 (S n) |} in
    policy_input C st = Ok input ∧
    ∀ st', loop_body C interval oracle ts st = Ok st' →
      ∃ w', action st' = (low_policy_predict C w' input).2.
Proof.
  intros Hsetup Hs.
  apply history_setup in Hsetup as (Hh & _).
  pose proof (history_steps _ _ _ _ _ _ _ _ Hh Hs) as HN.
  rewrite Nat.add_0_r in HN. destruct HN.
  exists (observation st), (skill st).
  assert (Hin : policy_input C st
                = Ok {| in_observations := obs_row0 C (observation st);
                        in_actions := action st;
                        in_skills := skill st;
                        in_timesteps := Z.of_nat <$> seq 0 (S n) |}).
  { unfold policy_input.
    rewrite h_last_observation0, h_last_skill0, h_timesteps0. done. }
  repeat split; auto.
  intros st' Hb.
  apply loop_body_Ok in Hb
    as (w0 & cur & sk & input & w1 & a & w2 & o & r & d & i & _ & Hin' & Hpol & _ & ->).
  rewrite Hin in Hin'. injection Hin' as <-.
  exists w0. simpl. by rewrite Hpol.
Qed.


End RolloutClaims.

(** ** The rollout loop on scripted collaborators *)

Section ScriptedRollout.
Import Rollout.

(** C1 (defect in the code): line 40 overwrites the translator's prediction
    with the source skills.  With a translator that reverses [1; 2; 3] the
    loop reads [1; 2; 3], and the first skill handed to the policy is 1, the
    first source skill, not 3, the first predicted target skill. *)
Theorem C1_rollout_executes_source_skills :
  (seq2seq_predict (Scripted.collaborators 7 3 false) 0%nat [1; 2; 3] ()).2
  = [3; 2; 1] ∧
  setup (Scripted.collaborators 7 3 false) 0%nat [1; 2; 3] ()
  = Ok ([1; 2; 3], Scripted.initial_state 7) ∧
  in_skills <$> policy_input (Scripted.collaborators 7 3 false) (Scripted.initial_state 7)
  = Ok 1 ∧
  skill_at [3; 2; 1] (cur_skill_pos (Scripted.initial_state 7)) = Ok 3.
Proof. repeat split. Qed.

(** C2, as stated, fails: on the second iteration the history holds two
    observations, and the policy receives the single latest one.  Two rollouts
    whose histories differ in their first entry hand the policy the same
    input. *)
Lemma C2_policy_input_drops_history :
  iterations (Scripted.collaborators 7 3 false) 10 true 1 [1; 2; 3]
    (Scripted.initial_state 7) = Ok (Scripted.state_after_one 7) ∧
  iterations (Scripted.collaborators 8 3 false) 10 true 1 [1; 2; 3]
    (Scripted.initial_state 8) = Ok (Scripted.state_after_one 8) ∧
  ep_observations (Scripted.state_after_one 7)
  ≠ ep_observations (Scripted.state_after_one 8) ∧
  policy_input (Scripted.collaborators 7 3 false) (Scripted.state_after_one 7)
  = Ok {| in_observations := 101; in_actions := 1; in_skills := 1;
          in_timesteps := [0; 1] |} ∧
  policy_input (Scripted.collaborators 8 3 false) (Scripted.state_after_one 8)
  = Ok {| in_observations := 101; in_actions := 1; in_skills := 1;
          in_timesteps := [0; 1] |}.
Proof. repeat split. discriminate. Qed.

Lemma C2_policy_sees_latest_entries_witness :
  ∃ o s,
    length (ep_observations (Scripted.state_after_one 7)) = 2%nat ∧
    last (ep_observations (Scripted.state_after_one 7)) = Some o ∧
    length (ep_skills (Scripted.state_after_one 7)) = 2%nat ∧
    last (ep_skills (Scripted.state_after_one 7)) = Some s ∧
    ep_timesteps (Scripted.state_after_one 7) = Z.of_nat <$> seq 0 2 ∧
    length (ep_actions (Scripted.state_after_one 7)) = 1%nat ∧
    last (ep_actions (Scripted.state_after_one 7))
    = (if decide (1 = 0)%nat then None
       else Some (action (Scripted.state_after_one 7))) ∧
    ((1 = 0)%nat →
     action (Scripted.state_after_one 7)
     = action_zeros (Scripted.collaborators 7 3 false)) ∧
    let input := {| in_observations := obs_row0 (Scripted.collaborators 7 3 false) o;
                    in_actions := action (Scripted.state_after_one 7);
                    in_skills := s;
                    in_timesteps := Z.of_nat <$> seq 0 2 |} in
    policy_input (Scripted.collaborators 7 3 false) (Scripted.state_after_one 7)
    = Ok input ∧
    ∀ st', loop_body (Scripted.collaborators 7 3 false) 10 true [1; 2; 3]
             (Scripted.state_after_one 7) = Ok st' →
      ∃ w', action st'
            = (low_policy_predict (Scripted.collaborators 7 3 false) w' input).2.
Proof.
  apply (C2_policy_sees_latest_entries (Scripted.collaborators 7 3 false) 10 true
           0%nat [1; 2; 3] () [1; 2; 3] (Scripted.initial_state 7) 1
           (Scripted.state_after_one 7)); reflexivity.
Defined.




End ScriptedRollout.

(* ================================================================== *)
(** * Further properties of the modelled code *)

(** ** The dilation, on every input *)

Section DilationCoverage.
Import Np Segmentation Vocabulary.

Lemma marks_window_written len (p : nat) t :
  0 <= t → Z.of_nat p < len →
  marks len p t = true ↔ window_written len t (Z.of_nat p).
Proof.
  intros Ht Hp. unfold marks, in_slice, slice_bound, window_written, n_aug.
  rewrite andb_true_iff, Z.leb_le, Z.ltb_lt.
  case_decide;
    destruct (Z.ltb_spec (t - 4) 0), (Z.ltb_spec (t + 4 + 1) 0); lia.
Qed.

(** X1: the dilation, entry by entry.  In an array of fewer than 2^31
    entries the augmented entry at [p] is 1 exactly when the raw entry is 1
    or some completion index [i] writes [p]; otherwise it is the raw entry.
    A completion index [i >= 4] writes [i-4 .. i+4] (clipped at the end of
    the array); an index [i < 4] writes only [L+i-4 .. i+4]. *)
Theorem X1_dilation_entrywise (skills_done : list Z) (p : nat) (x : Z) :
  Z.of_nat (length skills_done) < 2 ^ 31 →
  skills_done !! p = Some x →
  ∃ y, augment_skills_done skills_done !! p = Some y ∧
    (y = 1 ↔ x = 1 ∨ ∃ i : nat, skills_done !! i = Some 1 ∧
                 window_written (Z.of_nat (length skills_done))
                   (Z.of_nat i) (Z.of_nat p)) ∧
    (y ≠ 1 → y = x).
Proof.
  intros Hlen Hx. pose proof (lookup_lt_Some _ _ _ Hx) as HpL.
  rewrite (lookup_augment_skills_done _ _ _ Hx).
  destruct (existsb _ _) eqn:E.
  - exists 1. split; [done|]. split; [|done]. split; [|done]. intros _. right.
    apply existsb_marks_iff in E as (i & Hi & Hm).
    pose proof (lookup_lt_Some _ _ _ Hi) as HiL.
    rewrite astype_i4_small in Hm by lia.
    exists i. split; [done|]. apply marks_window_written in Hm; [done|lia|lia].
  - exists x. split; [done|]. split; [|done]. split; [auto|].
    intros [->|(i & Hi & Hw)]; [done|].
    pose proof (lookup_lt_Some _ _ _ Hi) as HiL.
    assert (existsb (marks (Z.of_nat (length skills_done)) p)
              (astype_i4 <$> where_eq 1 skills_done) = true) as E'.
    { apply existsb_marks_iff. exists i. split; [done|].
      rewrite astype_i4_small by lia.
      apply marks_window_written; [lia|lia|done]. }
    congruence.
Qed.

Lemma X1_dilation_entrywise_witness :
  ∃ y, augment_skills_done [0;0;1;0;0;0;0;0;0;0;0;1] !! 8%nat = Some y ∧
    (y = 1 ↔ 0 = 1 ∨ ∃ i : nat,
       [0;0;1;0;0;0;0;0;0;0;0;1] !! i = Some 1 ∧
       window_written (Z.of_nat (length [0;0;1;0;0;0;0;0;0;0;0;1]))
         (Z.of_nat i) (Z.of_nat 8)) ∧
    (y ≠ 1 → y = 0).
Proof.
  apply (X1_dilation_entrywise [0;0;1;0;0;0;0;0;0;0;0;1] 8 0); reflexivity.
Defined.

Lemma lookup_eq_ext {A : Type} (l k : list A) :
  length l = length k → (∀ (i : nat) x, l !! i = Some x → k !! i = Some x) → l = k.
Proof.
  intros Hlen H. apply list_eq. intros i.
  destruct (l !! i) as [x|] eqn:E; [symmetry; by apply H|].
  symmetry. apply lookup_ge_None. apply lookup_ge_None in E. lia.
Qed.

(** X2: the dilation keeps the length, changes an entry only by setting it
    to 1, so keeps a 0/1 array a 0/1 array, and returns an array without any
    1 unchanged. *)
Theorem X2_dilation_only_sets_ones (skills_done : list Z) :
  length (augment_skills_done skills_done) = length skills_done ∧
  (∀ (p : nat) x, skills_done !! p = Some x →
     augment_skills_done skills_done !! p = Some x ∨
     augment_skills_done skills_done !! p = Some 1) ∧
  (binary skills_done → binary (augment_skills_done skills_done)) ∧
  ((∀ i : nat, skills_done !! i ≠ Some 1) →
   augment_skills_done skills_done = skills_done).
Proof.
  split; [apply length_augment_skills_done|]. split; [|split].
  - intros p x. apply augment_keeps_or_marks.
  - unfold binary. rewrite !Forall_lookup. intros Hb p y Hy.
    destruct (lookup_lt_is_Some_2 skills_done p) as [x Hx].
    { apply lookup_lt_Some in Hy. by rewrite length_augment_skills_done in Hy. }
    destruct (augment_keeps_or_marks _ _ _ Hx) as [H|H];
      rewrite H in Hy; injection Hy as <-; [by apply (Hb p)|by right].
  - intros Hnone. symmetry. apply lookup_eq_ext.
    + symmetry. apply length_augment_skills_done.
    + intros p x Hx. rewrite (lookup_augment_skills_done _ _ _ Hx).
      destruct (existsb _ _) eqn:E; [|done].
      apply existsb_marks_iff in E as (i & Hi & _). by destruct (Hnone i).
Qed.

End DilationCoverage.

(** ** First observations: when the scan succeeds *)

Section FirstObservationCoverage.
Import Segmentation.
Context {Obs : Type}.

Lemma setitem_lt {A : Type} (a : list A) (i : nat) (x : A) :
  (i < length a)%nat → Np.setitem a i x = Ok (<[i:=x]> a).
Proof. intros Hi. unfold Np.setitem. by rewrite decide_True. Qed.

Lemma first_obs_loop_total (observations : list Obs) (skills_idxs : list Z)
    (n j pos : nat) (fo : list Obs) :
  (0 < j)%nat → (j + n ≤ length skills_idxs)%nat → (j + n ≤ length observations)%nat →
  length fo = length observations → (pos < length observations)%nat →
  ∃ st', first_obs_loop observations skills_idxs (seq j n) (pos, fo) = Ok st'.
Proof.
  revert j pos fo. induction n as [|n IH]; intros j pos fo Hj Hidx Hobs Hfo Hpos.
  - simpl. eauto.
  - simpl. unfold first_obs_step.
    destruct (lookup_lt_is_Some_2 skills_idxs (j - 1)) as [prev Hprev]; [lia|].
    destruct (lookup_lt_is_Some_2 skills_idxs j) as [cur Hcur]; [lia|].
    rewrite (proj2 (getitem_Ok _ _ _) Hprev). simpl.
    rewrite (proj2 (getitem_Ok _ _ _) Hcur). simpl.
    set (pos' := if decide (prev ≠ cur) then j else pos).
    assert (pos' < length observations)%nat as Hpos'.
    { unfold pos'. case_decide; lia. }
    destruct (lookup_lt_is_Some_2 observations pos' Hpos') as [o Ho].
    rewrite (proj2 (getitem_Ok _ _ _) Ho). simpl.
    rewrite setitem_lt by lia. simpl.
    apply IH; [lia|lia|lia| |done]. by rewrite length_insert.
Qed.

Lemma first_obs_loop_error (observations : list Obs) (skills_idxs : list Z)
    (range : list nat) st e :
  first_obs_loop observations skills_idxs range st = Raise e → e = IndexError.
Proof.
  revert st. induction range as [|i range IH]; intros [pos fo]; simpl; [done|].
  unfold first_obs_step, Np.getitem, Np.setitem, of_option.
  destruct (skills_idxs !! (i - 1)%nat); simpl; [|congruence].
  destruct (skills_idxs !! i); simpl; [|congruence].
  destruct (observations !! _); simpl; [|congruence].
  destruct (decide (i < length fo)%nat); simpl; [|congruence]. apply IH.
Qed.

Lemma compute_first_observations_error (zeros_like : Obs → Obs)
    (observations : list Obs) (skills_idxs : list Z) e :
  compute_first_observations zeros_like observations skills_idxs = Raise e →
  e = IndexError.
Proof.
  unfold compute_first_observations, Np.getitem, Np.setitem, of_option.
  destruct (observations !! 0%nat); simpl; [|congruence].
  case_decide; simpl; [|congruence].
  destruct (first_obs_loop _ _ _ _) as [st|e'] eqn:E; simpl; [done|].
  intros [= <-]. by eapply first_obs_loop_error.
Qed.

Lemma compute_first_observations_total (zeros_like : Obs → Obs)
    (observations : list Obs) (skills_idxs : list Z) :
  (0 < length observations)%nat →
  ((2 ≤ length observations)%nat → (length observations ≤ length skills_idxs)%nat) →
  ∃ fo, compute_first_observations zeros_like observations skills_idxs = Ok fo.
Proof.
  intros Hpos Hidx. unfold compute_first_observations.
  destruct (lookup_lt_is_Some_2 observations 0 Hpos) as [o Ho].
  rewrite (proj2 (getitem_Ok _ _ _) Ho). simpl.
  rewrite setitem_lt by (by rewrite length_fmap). simpl.
  destruct (decide (length observations = 1%nat)) as [H1|H1].
  - rewrite H1. simpl. eauto.
  - destruct (first_obs_loop_total observations skills_idxs
                (length observations - 1) 1 0
                (<[0%nat:=o]> (zeros_like <$> observations)))
      as [st' ->]; [lia|lia|lia| |lia|simpl; eauto].
    by rewrite length_insert, length_fmap.
Qed.

Lemma compute_first_observations_Ok_inv (zeros_like : Obs → Obs)
    (observations : list Obs) (skills_idxs : list Z) fo :
  compute_first_observations zeros_like observations skills_idxs = Ok fo →
  (0 < length observations)%nat ∧
  ((2 ≤ length observations)%nat → (length observations ≤ length skills_idxs)%nat).
Proof.
  intros H.
  apply compute_first_observations_scanned in H as (Hpos & pos & Hsc).
  split; [done|]. intros H2.
  destruct Hsc as (_ & _ & _ & Hidx).
  destruct (Hidx (length observations - 1)%nat) as [_ [x Hx]]; [lia|].
  apply lookup_lt_Some in Hx. lia.
Qed.

(** X3: the scan for [first_observations] succeeds exactly when the
    trajectory is not empty and, if it has two timesteps or more,
    [skills_idxs] has an entry for each of them; every failure is an
    [IndexError]. *)
Theorem X3_first_observations_success (zeros_like : Obs → Obs)
    (observations : list Obs) (skills_idxs : list Z) :
  ((∃ fo, compute_first_observations zeros_like observations skills_idxs = Ok fo)
   ↔ (0 < length observations)%nat ∧
     ((2 ≤ length observations)%nat →
      (length observations ≤ length skills_idxs)%nat)) ∧
  (∀ e, compute_first_observations zeros_like observations skills_idxs = Raise e →
        e = IndexError).
Proof.
  split; [|intros e; apply compute_first_observations_error]. split.
  - intros [fo H]. by eapply compute_first_observations_Ok_inv.
  - intros [Hpos Hidx]. by apply compute_first_observations_total.
Qed.

(** X4: the zero-filled array [first_observations] starts from never shows
    in the outcome: two fill functions give the same result. *)
Theorem X4_first_observations_ignore_zero_fill (zeros_like zeros_like' : Obs → Obs)
    (observations : list Obs) (skills_idxs : list Z) :
  compute_first_observations zeros_like observations skills_idxs
  = compute_first_observations zeros_like' observations skills_idxs.
Proof.
  destruct (compute_first_observations zeros_like observations skills_idxs)
    as [fo|e] eqn:E;
  destruct (compute_first_observations zeros_like' observations skills_idxs)
    as [fo'|e'] eqn:E'.
  - apply compute_first_observations_scanned in E as (_ & pos & Hl & _ & Hfo & _).
    apply compute_first_observations_scanned in E' as (_ & pos' & Hl' & _ & Hfo' & _).
    simpl in *. f_equal. apply list_eq. intros i.
    destruct (decide (i < length observations)%nat) as [Hi|Hi].
    + by rewrite Hfo, Hfo'.
    + rewrite !(proj2 (lookup_ge_None _ _)); [done|lia|lia].
  - exfalso. apply compute_first_observations_Ok_inv in E as [H1 H2].
    destruct (compute_first_observations_total zeros_like' observations skills_idxs
                H1 H2) as [fo2 Hfo2]. congruence.
  - exfalso. apply compute_first_observations_Ok_inv in E' as [H1 H2].
    destruct (compute_first_observations_total zeros_like observations skills_idxs
                H1 H2) as [fo2 Hfo2]. congruence.
  - apply compute_first_observations_error in E, E'. by subst.
Qed.

End FirstObservationCoverage.

(** ** Ingestion of one trajectory, field by field *)

Section IngestCoverage.
Import Segmentation Ingest Vocabulary.
Context {Vec Info : Type} (zeros_like : Vec → Vec).
Implicit Types (trajectory : gmap string (@h5 Vec Info))
  (lg : gmap string (list (string * Vec))).

Lemma get_as_rows trajectory key rows :
  get trajectory key ≫= as_rows = Ok rows ↔ trajectory !! key = Some (H5Rows rows).
Proof.
  unfold get, of_option. destruct (trajectory !! key) as [[]|]; simpl;
    split; congruence.
Qed.

Lemma get_as_ints trajectory key xs :
  get trajectory key ≫= as_ints = Ok xs ↔ trajectory !! key = Some (H5Ints xs).
Proof.
  unfold get, of_option. destruct (trajectory !! key) as [[]|]; simpl;
    split; congruence.
Qed.

Lemma get_as_group trajectory key members :
  get trajectory key ≫= as_group = Ok members
  ↔ trajectory !! key = Some (H5Group members).
Proof.
  unfold get, of_option. destruct (trajectory !! key) as [[]|]; simpl;
    split; congruence.
Qed.

Lemma get_as_bytes trajectory key b :
  get trajectory key ≫= as_bytes = Ok b ↔ trajectory !! key = Some (H5Bytes b).
Proof.
  unfold get, of_option. destruct (trajectory !! key) as [[]|]; simpl;
    split; congruence.
Qed.



Lemma preprocess_Ok_inv trajectory lg (r : nat) (ds : Dataset) :
  preprocess_h5py_trajectory zeros_like trajectory lg r = Ok ds →
  ("infos"%string ∉ dom trajectory) ∧
  ∃ obs acts idxs order sdone demos target op phrasings v fo,
    trajectory !! "observations"%string = Some (H5Rows obs) ∧
    trajectory !! "actions"%string = Some (H5Rows acts) ∧
    trajectory !! "skills_idxs"%string = Some (H5Ints idxs) ∧
    trajectory !! "skills_order"%string = Some (H5Ints order) ∧
    trajectory !! "skills_done"%string = Some (H5Ints sdone) ∧
    trajectory !! "source_skills"%string = Some (H5Group demos) ∧
    trajectory !! "target_skills"%string = Some (H5Rows target) ∧
    trajectory !! "operator"%string = Some (H5Bytes op) ∧
    lg !! op = Some phrasings ∧
    random_choice r phrasings.*2 = Ok v ∧
    compute_first_observations zeros_like obs idxs = Ok fo ∧
    ds = dataset_of zeros_like obs acts idxs order sdone demos target v fo.
Proof.
  intros H. unfold preprocess_h5py_trajectory in H.
  repeat (inv_bind H; cbv beta zeta in H).
  injection H as <-.
  apply get_as_rows in Ha0, Ha1, Ha4. apply get_as_group in Ha3.
  apply get_as_bytes in Ha5. apply get_as_ints in Ha8, Ha10, Ha11.
  destruct (decide ("infos"%string ∈ dom trajectory)) as [|Hinfos]; [discriminate|].
  injection Ha2 as <-.
  unfold of_option in Ha6. destruct (lg !! a5) as [phrasings|] eqn:Hlg; [|discriminate].
  injection Ha6 as <-.
  split; [done|].
  by exists a0, a1, a8, a11, a10, a3, a4, a5, phrasings, a7, a9.
Qed.



End IngestCoverage.

Section IngestCoverageTheorems.
Import Segmentation Ingest Vocabulary.
Context {Vec Info : Type} (zeros_like : Vec → Vec).
Implicit Types (trajectory : gmap string (@h5 Vec Info))
  (lg : gmap string (list (string * Vec))).

(** X5: an ingested trajectory has at least one timestep, and every array
    the method derives has one entry per observation: [next_observations] and
    [first_observations], the all-zero [rewards] and [rtgs], the all-False
    [dones] and the empty [infos]; the dilated [skills_done] has the length
    of the raw one. *)
Theorem X5_ingested_shapes trajectory lg (r : nat) (ds : Dataset) :
  preprocess_h5py_trajectory zeros_like trajectory lg r = Ok ds →
  (0 < length (observations ds))%nat ∧
  length (next_observations ds) = length (observations ds) ∧
  length (first_observations ds) = length (observations ds) ∧
  rewards ds = replicate (length (observations ds)) 0 ∧
  rtgs ds = replicate (length (observations ds)) 0 ∧
  dones ds = replicate (length (observations ds)) false ∧
  infos ds = replicate (length (observations ds)) [] ∧
  ∃ raw, trajectory !! "skills_done"%string = Some (H5Ints raw) ∧
         length (skills_done ds) = length raw.
Proof.
  intros H. apply preprocess_Ok_inv in H
    as (_ & obs & acts & idxs & order & sdone & demos & target & op & phr & v & fo
        & _ & _ & _ & _ & Hsd & _ & _ & _ & _ & _ & Hfo & ->).
  apply compute_first_observations_scanned in Hfo as (Hpos & pos & Hlen & _).
  simpl in *. split; [done|]. split.
  { rewrite length_app, !length_drop, length_fmap. lia. }
  split; [done|]. do 4 (split; [done|]).
  exists sdone. split; [done|]. apply length_augment_skills_done.
Qed.

(** X6: [next_observations] is [observations] shifted by one step: entry
    [i] is observation [i+1], and the last entry is the zero row standing for
    the missing successor. *)
Theorem X6_next_observations_shift trajectory lg (r : nat) (ds : Dataset) :
  preprocess_h5py_trajectory zeros_like trajectory lg r = Ok ds →
  (∀ (i : nat) o, observations ds !! S i = Some o →
     next_observations ds !! i = Some o) ∧
  last (next_observations ds) = zeros_like <$> last (observations ds).
Proof.
  intros H. apply preprocess_Ok_inv in H
    as (_ & obs & acts & idxs & order & sdone & demos & target & op & phr & v & fo
        & _ & _ & _ & _ & _ & _ & _ & _ & _ & _ & Hfo & ->).
  apply compute_first_observations_scanned in Hfo as (Hpos & _).
  simpl. split.
  - intros i o Hi. apply lookup_app_l_Some. by rewrite lookup_drop.
  - rewrite !last_lookup.
    rewrite length_app, !length_drop, length_fmap.
    replace (pred (length obs - 1 + (length obs - (length obs - 1))))
      with (length (drop 1 obs) + 0)%nat by (rewrite length_drop; lia).
    rewrite lookup_app_r by lia.
    replace (length (drop 1 obs) + 0 - length (drop 1 obs))%nat with 0%nat by lia.
    rewrite lookup_drop, list_lookup_fmap. f_equal. f_equal. lia.
Qed.


(** X8: a trajectory file with an ["infos"] member is never ingested; when
    the required members are there and [observations] and [actions] are float
    datasets, the failure is the assertion on the type of ["infos"]. *)
Theorem X8_infos_member_rejected trajectory lg (r : nat) :
  "infos"%string ∈ dom trajectory →
  ∃ e, preprocess_h5py_trajectory zeros_like trajectory lg r = Raise e ∧
    (MUST_LOADED_COMPONENTS ⊆ dom trajectory →
     ∀ obs acts,
       trajectory !! "observations"%string = Some (H5Rows obs) →
       trajectory !! "actions"%string = Some (H5Rows acts) →
       e = AssertionError_infos).
Proof.
  intros Hinfos.
  destruct (preprocess_h5py_trajectory zeros_like trajectory lg r) as [ds|e] eqn:E.
  { apply preprocess_Ok_inv in E as [Hno _]. by destruct Hno. }
  exists e. split; [done|]. intros Hmust obs acts Hobs Hacts.
  unfold preprocess_h5py_trajectory, check_must_loaded in E.
  rewrite decide_True in E by done. simpl in E.
  rewrite (proj2 (get_as_rows _ _ _) Hobs) in E. simpl in E.
  rewrite (proj2 (get_as_rows _ _ _) Hacts) in E. simpl in E.
  rewrite decide_True in E by done. simpl in E. congruence.
Qed.


End IngestCoverageTheorems.

Lemma X5_ingested_shapes_witness :
  (0 < length (Ingest.observations Scripted.dataset))%nat ∧
  length (Ingest.next_observations Scripted.dataset)
  = length (Ingest.observations Scripted.dataset) ∧
  length (Ingest.first_observations Scripted.dataset)
  = length (Ingest.observations Scripted.dataset) ∧
  Ingest.rewards Scripted.dataset
  = replicate (length (Ingest.observations Scripted.dataset)) 0 ∧
  Ingest.rtgs Scripted.dataset
  = replicate (length (Ingest.observations Scripted.dataset)) 0 ∧
  Ingest.dones Scripted.dataset
  = replicate (length (Ingest.observations Scripted.dataset)) false ∧
  Ingest.infos Scripted.dataset
  = replicate (length (Ingest.observations Scripted.dataset)) [] ∧
  ∃ raw, Scripted.trajectory !! "skills_done"%string = Some (Ingest.H5Ints raw) ∧
         length (Ingest.skills_done Scripted.dataset) = length raw.
Proof.
  apply (X5_ingested_shapes (λ _, 0) Scripted.trajectory
           Scripted.language_guidance 3 Scripted.dataset).
  vm_compute. reflexivity.
Defined.

Lemma X6_next_observations_shift_witness :
  (∀ (i : nat) o, Ingest.observations Scripted.dataset !! S i = Some o →
     Ingest.next_observations Scripted.dataset !! i = Some o) ∧
  last (Ingest.next_observations Scripted.dataset)
  = (λ _, 0) <$> last (Ingest.observations Scripted.dataset).
Proof.
  apply (X6_next_observations_shift (λ _, 0) Scripted.trajectory
           Scripted.language_guidance 3 Scripted.dataset).
  vm_compute. reflexivity.
Defined.

Lemma X8_infos_member_rejected_witness :
  ∃ e, Ingest.preprocess_h5py_trajectory (λ _, 0)
         (<["infos"%string := Ingest.H5Infos [()]]> Scripted.trajectory)
         Scripted.language_guidance 0 = Raise e ∧
    (Ingest.MUST_LOADED_COMPONENTS
       ⊆ dom (<["infos"%string := Ingest.H5Infos [()]]> Scripted.trajectory) →
     ∀ obs acts,
       <["infos"%string := Ingest.H5Infos [()]]> Scripted.trajectory
         !! "observations"%string = Some (Ingest.H5Rows obs) →
       <["infos"%string := Ingest.H5Infos [()]]> Scripted.trajectory
         !! "actions"%string = Some (Ingest.H5Rows acts) →
       e = AssertionError_infos).
Proof.
  apply (X8_infos_member_rejected (λ _, 0)
           (<["infos"%string := Ingest.H5Infos [()]]> Scripted.trajectory)
           Scripted.language_guidance 0).
  vm_compute. reflexivity.
Defined.


(** ** Sampling: every outcome of [_get_samples] *)

Section SamplingCoverage.
Import Sampling.
Context {Episode Subtraj : Type} (len : Episode → Z).
Variable get_numpy_subtrajectory : Episode → Z → Z → Subtraj.

Lemma mapM_res_cons {A B : Type} (f : A → res B) (x : A) (l : list A) :
  mapM f (x :: l) = f x ≫= λ y, mapM f l ≫= λ k, Ok (y :: k).
Proof. reflexivity. Qed.

Lemma mapM_getitem_Raise (episodes : list Episode) (batch_inds : list nat) :
  Exists (λ i, length episodes ≤ i)%nat batch_inds →
  mapM (Np.getitem episodes) batch_inds = Raise IndexError.
Proof.
  induction batch_inds as [|i batch_inds IH]; intros Hex.
  - by apply Exists_nil in Hex.
  - rewrite mapM_res_cons.
    destruct (Np.getitem episodes i) as [ep|e] eqn:Hi; simpl.
    + apply getitem_Ok in Hi. apply Exists_cons in Hex as [Hge|Hex].
      * apply lookup_lt_Some in Hi. lia.
      * by rewrite (IH Hex).
    + unfold Np.getitem, of_option in Hi.
      destruct (episodes !! i); [discriminate|congruence].
Qed.

Lemma mapM_getitem_Ok (episodes : list Episode) (batch_inds : list nat) :
  Forall (λ i, i < length episodes)%nat batch_inds →
  ∃ chosen, mapM (Np.getitem episodes) batch_inds = Ok chosen ∧
    length chosen = length batch_inds ∧
    ∀ (k i : nat), batch_inds !! k = Some i → chosen !! k = episodes !! i.
Proof.
  induction batch_inds as [|i batch_inds IH]; intros Hall.
  - exists []. by split.
  - apply Forall_cons in Hall as [Hi Hall].
    destruct (IH Hall) as (chosen & Hm & Hlen & Hk).
    destruct (lookup_lt_is_Some_2 episodes i Hi) as [ep Hep].
    exists (ep :: chosen). rewrite mapM_res_cons.
    rewrite (proj2 (getitem_Ok _ _ _) Hep). simpl. rewrite Hm. simpl.
    split; [done|]. split; [by rewrite Hlen|].
    intros [|k] j Hj; simpl in *; [by injection Hj as <-|by apply Hk].
Qed.


(** X10: how [_get_samples] fails.  A batch index beyond the stored episodes
    raises [IndexError]; with all indices in range, one chosen episode no
    longer than [subseq_len] raises numpy's [ValueError], whatever the
    generator. *)
Theorem X10_get_samples_failures (episodes : list Episode) (subseq_len : Z)
    (rng : nat → Z) (batch_inds : list nat) :
  (Exists (λ i, length episodes ≤ i)%nat batch_inds →
   _get_samples len get_numpy_subtrajectory episodes subseq_len rng batch_inds
   = Raise IndexError) ∧
  (Forall (λ i, i < length episodes)%nat batch_inds →
   Exists (λ i, ∃ ep, episodes !! i = Some ep ∧ len ep <= subseq_len) batch_inds →
   _get_samples len get_numpy_subtrajectory episodes subseq_len rng batch_inds
   = Raise ValueError).
Proof.
  unfold _get_samples, sample_start_idxs. split.
  - intros Hex. by rewrite (mapM_getitem_Raise _ _ Hex).
  - intros Hall Hex.
    destruct (mapM_getitem_Ok _ _ Hall) as (chosen & -> & Hlen & Hk). simpl.
    unfold randint. rewrite decide_True; [done|].
    apply Exists_fmap. apply Exists_exists in Hex as (i & Hin & ep & Hep & Hle).
    apply list_elem_of_lookup in Hin as [k Hki].
    apply Exists_exists. exists ep. split.
    + apply list_elem_of_lookup. exists k. by rewrite (Hk k i Hki).
    + simpl. lia.
Qed.


End SamplingCoverage.


(** ** Loading a set of trajectories *)

Section PyMinMax.
Import Buffer.

Lemma foldl_min_spec (xs : list Z) (x : Z) :
  foldl Z.min x xs ∈ x :: xs ∧ ∀ y, y ∈ x :: xs → foldl Z.min x xs <= y.
Proof.
  revert x. induction xs as [|z xs IH]; intros x; simpl.
  - split; [left|]. intros y Hy. apply list_elem_of_singleton in Hy. lia.
  - destruct (IH (Z.min x z)) as [Hin Hle]. split.
    + apply elem_of_cons in Hin as [Heq|Hin]; [|by do 2 right].
      rewrite Heq. destruct (Z.min_spec x z) as [[_ ->]|[_ ->]];
        [left|right; left].
    + intros y Hy. apply elem_of_cons in Hy as [->|Hy].
      * pose proof (Hle (Z.min x z) ltac:(left)). lia.
      * apply elem_of_cons in Hy as [->|Hy].
        -- pose proof (Hle (Z.min x z) ltac:(left)). lia.
        -- apply Hle. by right.
Qed.

Lemma foldl_max_spec (xs : list Z) (x : Z) :
  foldl Z.max x xs ∈ x :: xs ∧ ∀ y, y ∈ x :: xs → y <= foldl Z.max x xs.
Proof.
  revert x. induction xs as [|z xs IH]; intros x; simpl.
  - split; [left|]. intros y Hy. apply list_elem_of_singleton in Hy. lia.
  - destruct (IH (Z.max x z)) as [Hin Hle]. split.
    + apply elem_of_cons in Hin as [Heq|Hin]; [|by do 2 right].
      rewrite Heq. destruct (Z.max_spec x z) as [[_ ->]|[_ ->]];
        [right; left|left].
    + intros y Hy. apply elem_of_cons in Hy as [->|Hy].
      * pose proof (Hle (Z.max x z) ltac:(left)). lia.
      * apply elem_of_cons in Hy as [->|Hy].
        -- pose proof (Hle (Z.max x z) ltac:(left)). lia.
        -- apply Hle. by right.
Qed.

Lemma py_min_Ok (xs : list Z) (m : Z) :
  py_min xs = Ok m → m ∈ xs ∧ ∀ y, y ∈ xs → m <= y.
Proof.
  destruct xs as [|x xs]; [discriminate|]. intros [= <-]. apply foldl_min_spec.
Qed.

Lemma py_max_Ok (xs : list Z) (m : Z) :
  py_max xs = Ok m → m ∈ xs ∧ ∀ y, y ∈ xs → y <= m.
Proof.
  destruct xs as [|x xs]; [discriminate|]. intros [= <-]. apply foldl_max_spec.
Qed.

Lemma py_min_Raise (xs : list Z) e : py_min xs = Raise e → xs = [] ∧ e = ValueError.
Proof. destruct xs; [by intros [= <-]|discriminate]. Qed.

Lemma py_max_Raise (xs : list Z) e : py_max xs = Raise e → xs = [] ∧ e = ValueError.
Proof. destruct xs; [by intros [= <-]|discriminate]. Qed.

End PyMinMax.

Section BufferCoverage.
Import Ingest Buffer Vocabulary.
Context {Vec Info Episode : Type}.
Variable zeros_like : Vec → Vec.
Variable add_from_dict : @Dataset Vec Info → Episode.
Variable len : Episode → Z.
Variable n_source_skills : Episode → Z.
Variable n_target_skills : Episode → Z.
Variable set_zeropaddings : Z → Z → Episode → Episode.
Variable add : list Episode → Episode → list Episode.

Abbreviation bstate := (@Buffer.State Episode).
Abbreviation add_ep := (add_episode len add).
Abbreviation load := (load_trajectories zeros_like add_from_dict len add).

Lemma foldl_add_episode (eps : list Episode) (st : bstate) :
  episodes (foldl add_ep st eps) = foldl add (episodes st) eps ∧
  episode_lengths (foldl add_ep st eps) = episode_lengths st ++ (len <$> eps) ∧
  min_episode_length (foldl add_ep st eps) = min_episode_length st ∧
  max_episode_length (foldl add_ep st eps) = max_episode_length st ∧
  subseq_len (foldl add_ep st eps) = subseq_len st.
Proof.
  revert st. induction eps as [|ep eps IH]; intros st; simpl.
  - by rewrite app_nil_r.
  - destruct (IH (add_ep st ep)) as (-> & -> & -> & -> & ->). simpl.
    by rewrite <- app_assoc.
Qed.

Lemma load_trajectories_spec lg (rng : nat → nat) (k : nat)
    (trajectories : list (gmap string (@h5 Vec Info))) (st st' : bstate) out :
  load lg rng k trajectories st = (st', out) →
  ∃ datasets,
    ingested zeros_like lg rng k trajectories datasets ∧
    st' = foldl add_ep st (add_from_dict <$> datasets) ∧
    match out with
    | Ok _ => length datasets = length trajectories
    | Raise e =>
        ∃ trajectory, trajectories !! length datasets = Some trajectory ∧
          preprocess_h5py_trajectory zeros_like trajectory lg
            (rng (k + length datasets)%nat) = Raise e
    end.
Proof.
  revert k st. induction trajectories as [|t ts IH]; intros k st; simpl.
  - intros [= <- <-]. exists []. split; [|done]. split; [done|]. by intros j ds.
  - destruct (preprocess_h5py_trajectory zeros_like t lg (rng k)) as [ds|e] eqn:E.
    + intros H. apply IH in H as (datasets & [Hlen Hing] & -> & Hout).
      exists (ds :: datasets). split; [|split; [done|]].
      * split; [simpl; lia|]. intros [|j] d Hd; simpl in *.
        -- injection Hd as <-. exists t. by rewrite Nat.add_0_r.
        -- destruct (Hing j d Hd) as (t' & Ht' & Hp). exists t'. split; [done|].
           by replace (k + S j)%nat with (S k + j)%nat by lia.
      * destruct out as [[]|e]; simpl; [by rewrite Hout|].
        destruct Hout as (t' & Ht' & Hp). exists t'. split; [done|].
        by replace (k + S (length datasets))%nat
             with (S k + length datasets)%nat by lia.
    + intros [= <- <-]. exists []. split; [|split; [done|]].
      * split; [simpl; lia|]. by intros j ds.
      * exists t. simpl. by rewrite Nat.add_0_r.
Qed.

Lemma load_trajectories_intro lg (rng : nat → nat) (k : nat)
    (trajectories : list (gmap string (@h5 Vec Info))) (st : bstate) datasets :
  ingested zeros_like lg rng k trajectories datasets →
  (length datasets = length trajectories →
   load lg rng k trajectories st
   = (foldl add_ep st (add_from_dict <$> datasets), Ok ())) ∧
  (∀ trajectory e,
     trajectories !! length datasets = Some trajectory →
     preprocess_h5py_trajectory zeros_like trajectory lg
       (rng (k + length datasets)%nat) = Raise e →
     load lg rng k trajectories st
     = (foldl add_ep st (add_from_dict <$> datasets), Raise e)).
Proof.
  revert k trajectories st.
  induction datasets as [|ds datasets IH]; intros k trajectories st [Hlen Hing].
  - split.
    + simpl. intros Hl. by destruct trajectories.
    + intros t e Ht He. destruct trajectories as [|t' ts]; [done|].
      simpl in *. injection Ht as ->. rewrite Nat.add_0_r in He. by rewrite He.
  - destruct trajectories as [|t ts]; [simpl in Hlen; lia|].
    destruct (Hing 0%nat ds eq_refl) as (t' & [= <-] & Hds).
    rewrite Nat.add_0_r in Hds.
    assert (ingested zeros_like lg rng (S k) ts datasets) as Hrest.
    { split; [simpl in Hlen; lia|]. intros j d Hd.
      destruct (Hing (S j) d Hd) as (t' & Ht' & Hp). exists t'. split; [done|].
      by replace (S k + j)%nat with (k + S j)%nat by lia. }
    destruct (IH (S k) ts (add_ep st (add_from_dict ds)) Hrest) as [Hok Hfail].
    split.
    + intros Hl. simpl. rewrite Hds. apply Hok. simpl in Hl. lia.
    + intros t' e Ht' He. simpl. rewrite Hds. apply (Hfail t' e); [done|].
      by replace (S k + length datasets)%nat
           with (k + length (ds :: datasets))%nat by (simpl; lia).
Qed.

(** X12: after a successful load every trajectory file has been ingested,
    in order, the length of each new episode is appended to
    [episode_lengths], and [min_episode_length] and [max_episode_length] are
    the least and the greatest entry of that list, old entries included. *)
Theorem X12_load_lengths_min_max lg (rng : nat → nat)
    (trajectories : list (gmap string (@h5 Vec Info))) (st st' : bstate) :
  add_episodes_from_h5py zeros_like add_from_dict len n_source_skills
    n_target_skills set_zeropaddings add lg rng trajectories st = (st', Ok ()) →
  ∃ datasets,
    ingested zeros_like lg rng 0 trajectories datasets ∧
    length datasets = length trajectories ∧
    episode_lengths st'
    = episode_lengths st ++ ((λ ds, len (add_from_dict ds)) <$> datasets) ∧
    min_episode_length st' ∈ episode_lengths st' ∧
    max_episode_length st' ∈ episode_lengths st' ∧
    (∀ l, l ∈ episode_lengths st' →
       min_episode_length st' <= l <= max_episode_length st') ∧
    subseq_len st' = subseq_len st.
Proof.
  unfold add_episodes_from_h5py.
  destruct (load_trajectories _ _ _ _ lg rng 0 trajectories st) as [st1 [[]|e]] eqn:E;
    [|discriminate].
  apply load_trajectories_spec in E as (datasets & Hing & -> & Hlen).
  destruct (foldl_add_episode (add_from_dict <$> datasets) st)
    as (Heps & Hlens & Hmin & Hmax & Hsub).
  unfold finish_loading.
  destruct (py_min _) as [lo|] eqn:Hlo; [|discriminate]. simpl.
  destruct (py_max (episode_lengths _)) as [hi|] eqn:Hhi; [|discriminate]. simpl.
  destruct (py_max (n_source_skills <$> _)) as [ms|]; [|discriminate].
  destruct (py_max (n_target_skills <$> _)) as [mt|]; [|discriminate].
  intros [= <-]. simpl.
  apply py_min_Ok in Hlo as [Hlo1 Hlo2]. apply py_max_Ok in Hhi as [Hhi1 Hhi2].
  exists datasets. split; [done|]. split; [done|].
  split; [by rewrite Hlens, <- list_fmap_compose|].
  split; [done|]. split; [done|]. split; [|done].
  intros l Hl. split; [by apply Hlo2|by apply Hhi2].
Qed.

(** X13: after a successful load every episode of the buffer, old or new,
    has been padded with [n_padding = subseq_len] and one common
    [max_possible_skills]; that number bounds the source and target skill
    counts of every episode and is the count of one of them. *)
Theorem X13_load_pads_to_common_maximum lg (rng : nat → nat)
    (trajectories : list (gmap string (@h5 Vec Info))) (st st' : bstate) :
  add_episodes_from_h5py zeros_like add_from_dict len n_source_skills
    n_target_skills set_zeropaddings add lg rng trajectories st = (st', Ok ()) →
  ∃ datasets max_possible_skills,
    ingested zeros_like lg rng 0 trajectories datasets ∧
    length datasets = length trajectories ∧
    let stored := foldl add (episodes st) (add_from_dict <$> datasets) in
    episodes st'
    = set_zeropaddings (subseq_len st) max_possible_skills <$> stored ∧
    (∀ ep, ep ∈ stored →
       n_source_skills ep <= max_possible_skills ∧
       n_target_skills ep <= max_possible_skills) ∧
    (∃ ep, ep ∈ stored ∧
       (max_possible_skills = n_source_skills ep ∨
        max_possible_skills = n_target_skills ep)).
Proof.
  unfold add_episodes_from_h5py.
  destruct (load_trajectories _ _ _ _ lg rng 0 trajectories st) as [st1 [[]|e]] eqn:E;
    [|discriminate].
  apply load_trajectories_spec in E as (datasets & Hing & -> & Hlen).
  destruct (foldl_add_episode (add_from_dict <$> datasets) st)
    as (Heps & Hlens & Hmin & Hmax & Hsub).
  unfold finish_loading.
  destruct (py_min _) as [lo|] eqn:Hlo; [|discriminate]. simpl.
  destruct (py_max (episode_lengths _)) as [hi|] eqn:Hhi; [|discriminate]. simpl.
  destruct (py_max (n_source_skills <$> _)) as [ms|] eqn:Hms; [|discriminate].
  destruct (py_max (n_target_skills <$> _)) as [mt|] eqn:Hmt; [|discriminate].
  intros [= <-]. simpl.
  apply py_max_Ok in Hms as [Hms1 Hms2]. apply py_max_Ok in Hmt as [Hmt1 Hmt2].
  exists datasets, (Z.max ms mt). split; [done|]. split; [done|].
  rewrite Heps, Hsub in *. split; [done|]. split.
  - intros ep Hep. split.
    + pose proof (Hms2 (n_source_skills ep) (list_elem_of_fmap_2 _ _ _ Hep)). lia.
    + pose proof (Hmt2 (n_target_skills ep) (list_elem_of_fmap_2 _ _ _ Hep)). lia.
  - destruct (Z.max_spec ms mt) as [[_ ->]|[_ ->]].
    + apply list_elem_of_fmap in Hmt1 as (ep & -> & Hep). eauto.
    + apply list_elem_of_fmap in Hms1 as (ep & -> & Hep). eauto.
Qed.

(** X14: a trajectory that fails to ingest aborts the load with its error,
    after the episodes of the files before it were added: they stay in the
    buffer with their lengths recorded, no episode is padded, and
    [min_episode_length] and [max_episode_length] keep their old values. *)
Theorem X14_load_failure_keeps_earlier_episodes lg (rng : nat → nat)
    (trajectories : list (gmap string (@h5 Vec Info))) (st : bstate)
    datasets trajectory e :
  ingested zeros_like lg rng 0 trajectories datasets →
  trajectories !! length datasets = Some trajectory →
  preprocess_h5py_trajectory zeros_like trajectory lg (rng (length datasets))
  = Raise e →
  ∃ st',
    add_episodes_from_h5py zeros_like add_from_dict len n_source_skills
      n_target_skills set_zeropaddings add lg rng trajectories st
    = (st', Raise e) ∧
    episodes st' = foldl add (episodes st) (add_from_dict <$> datasets) ∧
    episode_lengths st'
    = episode_lengths st ++ ((λ ds, len (add_from_dict ds)) <$> datasets) ∧
    min_episode_length st' = min_episode_length st ∧
    max_episode_length st' = max_episode_length st.
Proof.
  intros Hing Ht He.
  destruct (load_trajectories_intro lg rng 0 trajectories st datasets Hing)
    as [_ Hfail].
  specialize (Hfail trajectory e Ht He).
  exists (foldl add_ep st (add_from_dict <$> datasets)).
  unfold add_episodes_from_h5py. rewrite Hfail.
  destruct (foldl_add_episode (add_from_dict <$> datasets) st)
    as (Heps & Hlens & Hmin & Hmax & Hsub).
  split; [done|]. split; [done|]. split; [|done].
  by rewrite Hlens, <- list_fmap_compose.
Qed.

(** X15: when every file ingests, the load fails only in [min] and [max]:
    with [ValueError], and exactly when the list of lengths or the list of
    episodes is empty afterwards, as for no file at all on a fresh buffer.
    When only the episodes are missing, the two length bounds have already
    been updated. *)
Theorem X15_load_value_error lg (rng : nat → nat)
    (trajectories : list (gmap string (@h5 Vec Info))) (st : bstate) datasets :
  ingested zeros_like lg rng 0 trajectories datasets →
  length datasets = length trajectories →
  let st1 := foldl add_ep st (add_from_dict <$> datasets) in
  ∃ st' out,
    add_episodes_from_h5py zeros_like add_from_dict len n_source_skills
      n_target_skills set_zeropaddings add lg rng trajectories st = (st', out) ∧
    (out = Ok () ∨ out = Raise ValueError) ∧
    (out = Ok () ↔ episode_lengths st1 ≠ [] ∧ episodes st1 ≠ []) ∧
    (episode_lengths st1 = [] → st' = st1) ∧
    (episode_lengths st1 ≠ [] → episodes st1 = [] →
     episodes st' = [] ∧
     py_min (episode_lengths st1) = Ok (min_episode_length st') ∧
     py_max (episode_lengths st1) = Ok (max_episode_length st')).
Proof.
  intros Hing Hlen st1.
  destruct (load_trajectories_intro lg rng 0 trajectories st datasets Hing)
    as [Hok _].
  unfold add_episodes_from_h5py. rewrite (Hok Hlen). fold st1. clearbody st1.
  unfold finish_loading.
  destruct (episode_lengths st1) as [|l ls] eqn:Hl; simpl.
  { exists st1, (Raise ValueError). split; [done|]. split; [by right|].
    split; [|done]. split; [discriminate|]. by intros [? _]. }
  destruct (episodes st1) as [|ep eps] eqn:Heps; simpl.
  { eexists _, (Raise ValueError). split; [reflexivity|]. split; [by right|].
    split; [|split; [done|]].
    - split; [discriminate|]. by intros [_ ?].
    - by intros _ _. }
  eexists _, (Ok ()). split; [reflexivity|]. split; [by left|].
  split; [|split; [done|]]; [split; [done|done]|]. by intros _ ?.
Qed.

End BufferCoverage.

Section BufferWitnesses.
Import Vocabulary ScriptedBuffer.

Lemma scripted_ingested_both :
  ingested (λ _ : Z, 0) Scripted.language_guidance (λ _, 3%nat) 0
    [Scripted.trajectory; trajectory2] [Scripted.dataset; dataset2].
Proof.
  split; [simpl; lia|]. intros j ds Hj.
  destruct j as [|[|j]]; simpl in Hj; [| |done]; injection Hj as <-.
  - exists Scripted.trajectory. split; [done|]. vm_compute. reflexivity.
  - exists trajectory2. split; [done|]. vm_compute. reflexivity.
Qed.

Lemma scripted_ingested_first :
  ingested (λ _ : Z, 0) Scripted.language_guidance (λ _, 3%nat) 0
    [Scripted.trajectory; delete "actions"%string Scripted.trajectory; trajectory2]
    [Scripted.dataset].
Proof.
  split; [simpl; lia|]. intros j ds Hj.
  destruct j as [|j]; simpl in Hj; [|done]. injection Hj as <-.
  exists Scripted.trajectory. split; [done|]. vm_compute. reflexivity.
Qed.

Lemma scripted_ingested_none :
  @ingested Z unit (λ _ : Z, 0) Scripted.language_guidance (λ _, 3%nat) 0 [] [].
Proof. split; [done|]. by intros j ds. Qed.

Lemma X12_load_lengths_min_max_witness :
  ∃ datasets,
    ingested (λ _ : Z, 0) Scripted.language_guidance (λ _, 3%nat) 0
      [Scripted.trajectory; trajectory2] datasets ∧
    length datasets = length [Scripted.trajectory; trajectory2] ∧
    Buffer.episode_lengths loaded
    = Buffer.episode_lengths fresh
      ++ ((λ ds, e_len (add_from_dict ds)) <$> datasets) ∧
    Buffer.min_episode_length loaded ∈ Buffer.episode_lengths loaded ∧
    Buffer.max_episode_length loaded ∈ Buffer.episode_lengths loaded ∧
    (∀ l, l ∈ Buffer.episode_lengths loaded →
       Buffer.min_episode_length loaded <= l <= Buffer.max_episode_length loaded) ∧
    Buffer.subseq_len loaded = Buffer.subseq_len fresh.
Proof.
  apply (X12_load_lengths_min_max (λ _ : Z, 0) add_from_dict e_len e_n_source
           e_n_target set_zeropaddings add Scripted.language_guidance
           (λ _, 3%nat) [Scripted.trajectory; trajectory2] fresh loaded).
  vm_compute. reflexivity.
Defined.

Lemma X13_load_pads_to_common_maximum_witness :
  ∃ datasets max_possible_skills,
    ingested (λ _ : Z, 0) Scripted.language_guidance (λ _, 3%nat) 0
      [Scripted.trajectory; trajectory2] datasets ∧
    length datasets = length [Scripted.trajectory; trajectory2] ∧
    let stored := foldl add (Buffer.episodes fresh) (add_from_dict <$> datasets) in
    Buffer.episodes loaded
    = set_zeropaddings (Buffer.subseq_len fresh) max_possible_skills <$> stored ∧
    (∀ ep, ep ∈ stored →
       e_n_source ep <= max_possible_skills ∧
       e_n_target ep <= max_possible_skills) ∧
    (∃ ep, ep ∈ stored ∧
       (max_possible_skills = e_n_source ep ∨
        max_possible_skills = e_n_target ep)).
Proof.
  apply (X13_load_pads_to_common_maximum (λ _ : Z, 0) add_from_dict e_len
           e_n_source e_n_target set_zeropaddings add Scripted.language_guidance
           (λ _, 3%nat) [Scripted.trajectory; trajectory2] fresh loaded).
  vm_compute. reflexivity.
Defined.

Lemma X14_load_failure_keeps_earlier_episodes_witness :
  ∃ st',
    Buffer.add_episodes_from_h5py (λ _ : Z, 0) add_from_dict e_len e_n_source
      e_n_target set_zeropaddings add Scripted.language_guidance (λ _, 3%nat)
      [Scripted.trajectory; delete "actions"%string Scripted.trajectory; trajectory2]
      fresh
    = (st', Raise (AssertionError {[ "operator"%string ]})) ∧
    Buffer.episodes st'
    = foldl add (Buffer.episodes fresh) (add_from_dict <$> [Scripted.dataset]) ∧
    Buffer.episode_lengths st'
    = Buffer.episode_lengths fresh
      ++ ((λ ds, e_len (add_from_dict ds)) <$> [Scripted.dataset]) ∧
    Buffer.min_episode_length st' = Buffer.min_episode_length fresh ∧
    Buffer.max_episode_length st' = Buffer.max_episode_length fresh.
Proof.
  apply (X14_load_failure_keeps_earlier_episodes (λ _ : Z, 0) add_from_dict e_len
           e_n_source e_n_target set_zeropaddings add Scripted.language_guidance
           (λ _, 3%nat)
           [Scripted.trajectory; delete "actions"%string Scripted.trajectory;
            trajectory2]
           fresh [Scripted.dataset] (delete "actions"%string Scripted.trajectory)).
  - exact scripted_ingested_first.
  - reflexivity.
  - vm_compute. reflexivity.
Defined.

Lemma X15_load_value_error_witness :
  let st1 := foldl (Buffer.add_episode e_len add) fresh (add_from_dict <$> []) in
  ∃ st' out,
    Buffer.add_episodes_from_h5py (λ _ : Z, 0) add_from_dict e_len e_n_source
      e_n_target set_zeropaddings add Scripted.language_guidance (λ _, 3%nat)
      [] fresh = (st', out) ∧
    (out = Ok () ∨ out = Raise ValueError) ∧
    (out = Ok () ↔ Buffer.episode_lengths st1 ≠ [] ∧ Buffer.episodes st1 ≠ []) ∧
    (Buffer.episode_lengths st1 = [] → st' = st1) ∧
    (Buffer.episode_lengths st1 ≠ [] → Buffer.episodes st1 = [] →
     Buffer.episodes st' = [] ∧
     Buffer.py_min (Buffer.episode_lengths st1) = Ok (Buffer.min_episode_length st') ∧
     Buffer.py_max (Buffer.episode_lengths st1) = Ok (Buffer.max_episode_length st')).
Proof.
  apply (X15_load_value_error (λ _ : Z, 0) add_from_dict e_len e_n_source
           e_n_target set_zeropaddings add Scripted.language_guidance
           (λ _, 3%nat) [] fresh []).
  - exact scripted_ingested_none.
  - reflexivity.
Defined.

End BufferWitnesses.

(** ** The rollout loop: outcomes *)

Section RolloutOutcomes.
Import Rollout Vocabulary.
Context {W Obs Row Act Skill Lang Reward Info : Type}.
Variable C : @Collaborators W Obs Row Act Skill Lang Reward Info.
Variable interval : Z.
Variable oracle : bool.

Abbreviation rstate := (@Rollout.State W Obs Act Skill Reward Info).

Lemma setup_total (w : W) (source_skills : list Skill) (lang : Lang) :
  source_skills ≠ [] → ∃ st0 : rstate, setup C w source_skills lang = Ok (source_skills, st0).
Proof.
  intros Hne. unfold setup.
  destruct (seq2seq_predict C w source_skills lang) as [w1 predicted].
  destruct (env_reset C w1) as [w2 o].
  destruct (skill_at_in_range source_skills 0) as [sk ->]; [|simpl; eauto].
  destruct source_skills; [done|]. simpl. lia.
Qed.

Lemma setup_empty (w : W) (lang : Lang) :
  setup C w [] lang = Raise IndexError.
Proof.
  unfold setup.
  destruct (seq2seq_predict C w [] lang) as [w1 predicted].
  by destruct (env_reset C w1) as [w2 o].
Qed.




(** X16: with no source skill there is nothing to execute: the rollout
    raises [IndexError] at line 54, in either mode and before any step of the
    environment, and only then does setting up fail. *)
Theorem X16_no_source_skill (w : W) (source_skills : list Skill) (lang : Lang) :
  (source_skills = [] →
   ∀ fuel, evaluate_comde C interval oracle fuel w source_skills lang
           = Some (Raise IndexError)) ∧
  (source_skills ≠ [] →
   ∃ st0, setup C w source_skills lang = Ok (source_skills, st0) ∧
          ep_observations st0 = [(env_reset C (seq2seq_predict C w source_skills lang).1).2] ∧
          ep_rewards st0 = [] ∧ done st0 = false).
Proof.
  split.
  - intros -> fuel. unfold evaluate_comde. by rewrite setup_empty.
  - intros Hne. destruct (setup_total w source_skills lang Hne) as [st0 Hst0].
    exists st0. split; [done|].
    unfold setup in Hst0.
    destruct (seq2seq_predict C w source_skills lang) as [w1 predicted]. simpl.
    destruct (env_reset C w1) as [w2 o].
    destruct (skill_at source_skills 0); simpl in Hst0; [|discriminate].
    by injection Hst0 as <-.
Qed.

(** X17: in learned mode a [termination_pred_interval] of 0 makes the first
    iteration raise [ZeroDivisionError] at line 81, before the policy is
    queried and the environment stepped, whatever the fuel. *)
Theorem X17_zero_interval (w : W) (source_skills : list Skill) (lang : Lang)
    (fuel : nat) :
  source_skills ≠ [] →
  evaluate_comde C 0 false (S fuel) w source_skills lang
  = Some (Raise ZeroDivisionError).
Proof.
  intros Hne. unfold evaluate_comde.
  destruct (setup_total w source_skills lang Hne) as [st0 Hst0]. rewrite Hst0.
  apply history_setup in Hst0 as (_ & Hd & _). simpl. rewrite Hd.
  unfold loop_body, advance_skill. done.
Qed.


End RolloutOutcomes.

(** ** The rollout loop: what the histories record *)

Section RolloutHistories.
Import Rollout Vocabulary.
Context {W Obs Row Act Skill Lang Reward Info : Type}.
Variable C : @Collaborators W Obs Row Act Skill Lang Reward Info.
Variable interval : Z.
Variable oracle : bool.

Abbreviation hstate := (@Rollout.State W Obs Act Skill Reward Info).
Abbreviation hbody := (loop_body C interval oracle).
Abbreviation hsteps := (iterations C interval oracle).

(** One iteration appends one entry to each history: the variables as the
    iteration leaves them. *)
Lemma body_appends (ts : list Skill) (st st' : hstate) :
  hbody ts st = Ok st' →
  ep_observations st' = ep_observations st ++ [observation st'] ∧
  ep_actions st' = ep_actions st ++ [action st'] ∧
  ep_skills st' = ep_skills st ++ [skill st'] ∧
  ep_timesteps st' = ep_timesteps st ++ [timestep st'] ∧
  (∃ r, ep_rewards st' = ep_rewards st ++ [r]) ∧
  ep_dones st' = ep_dones st ++ [done st'] ∧
  (∃ i, ep_infos st' = ep_infos st ++ [i]) ∧
  first_obs_of_skill st' = first_obs_of_skill st ∧
  timestep st' = timestep st + 1.
Proof.
  intros Hb. apply loop_body_Ok in Hb
    as (w & cur & sk & input & w1 & a & w2 & o & r & d & i & _ & _ & _ & _ & ->).
  simpl. repeat split; eauto.
  rewrite length_app. simpl.
  replace (length (ep_actions st) + 1 - 1)%nat
    with (length (ep_actions st) + 0)%nat by lia.
  by rewrite insert_app_r.
Qed.

Lemma steps_grow (ts : list Skill) (k : nat) (st st' : hstate) :
  hsteps k ts st = Ok st' →
  ep_observations st `prefix_of` ep_observations st' ∧
  ep_actions st `prefix_of` ep_actions st' ∧
  ep_skills st `prefix_of` ep_skills st' ∧
  ep_timesteps st `prefix_of` ep_timesteps st' ∧
  ep_rewards st `prefix_of` ep_rewards st' ∧
  ep_dones st `prefix_of` ep_dones st' ∧
  ep_infos st `prefix_of` ep_infos st' ∧
  first_obs_of_skill st' = first_obs_of_skill st.
Proof.
  revert st'. induction k as [|k IH]; intros st' Hs; simpl in Hs.
  - injection Hs as <-. done.
  - inv_bind Hs. destruct (IH _ Ha) as (H1 & H2 & H3 & H4 & H5 & H6 & H7 & H8).
    apply body_appends in Hs
      as (-> & -> & -> & -> & [r ->] & -> & [i ->] & -> & _).
    repeat split; try (by apply prefix_app_r). done.
Qed.

(** X19: the histories only grow.  What is recorded after [m] iterations is
    still there, unchanged, after [n >= m]: this holds for [ep_actions] too,
    whose last slot is appended at line 68 and overwritten at line 109 of
    the same iteration. *)
Theorem X19_histories_append_only (ts : list Skill) (st0 : hstate) (m n : nat)
    (st_m st_n : hstate) :
  (m ≤ n)%nat →
  iterations C interval oracle m ts st0 = Ok st_m →
  iterations C interval oracle n ts st0 = Ok st_n →
  ep_observations st_m `prefix_of` ep_observations st_n ∧
  ep_actions st_m `prefix_of` ep_actions st_n ∧
  ep_skills st_m `prefix_of` ep_skills st_n ∧
  ep_timesteps st_m `prefix_of` ep_timesteps st_n ∧
  ep_rewards st_m `prefix_of` ep_rewards st_n ∧
  ep_dones st_m `prefix_of` ep_dones st_n ∧
  ep_infos st_m `prefix_of` ep_infos st_n.
Proof.
  intros Hmn Hm Hn.
  replace n with ((n - m) + m)%nat in Hn by lia.
  rewrite steps_add, Hm in Hn. simpl in Hn.
  apply steps_grow in Hn as (? & ? & ? & ? & ? & ? & ? & _). done.
Qed.

(** X20: [first_obs_of_skill] is set once, to the observation of
    [env.reset()], and no iteration updates it: in every state the loop
    reaches, also after the skill index has advanced, it is the first entry
    of [ep_observations]. *)
Theorem X20_first_obs_of_skill_is_reset_observation (w : W)
    (source_skills : list Skill) (lang : Lang) (ts : list Skill)
    (st0 : hstate) (n : nat) (st : hstate) :
  setup C w source_skills lang = Ok (ts, st0) →
  iterations C interval oracle n ts st0 = Ok st →
  first_obs_of_skill st = (env_reset C (seq2seq_predict C w source_skills lang).1).2 ∧
  ep_observations st !! 0%nat = Some (first_obs_of_skill st).
Proof.
  intros Hsetup Hs.
  apply steps_grow in Hs as (Hobs & _ & _ & _ & _ & _ & _ & ->).
  unfold setup in Hsetup.
  destruct (seq2seq_predict C w source_skills lang) as [w1 predicted]. simpl.
  destruct (env_reset C w1) as [w2 o].
  destruct (skill_at source_skills 0); simpl in Hsetup; [|discriminate].
  injection Hsetup as <- <-. simpl in *. split; [done|].
  destruct Hobs as [k ->]. done.
Qed.

Lemma while_not_done_first (fuel : nat) (ts : list Skill) (st st' : hstate) :
  while_not_done C interval oracle fuel ts st = Some (Ok st') →
  ∃ N : nat, hsteps N ts st = Ok st' ∧ done st' = true ∧
    ∀ (m : nat) st_m, (m < N)%nat → hsteps m ts st = Ok st_m → done st_m = false.
Proof.
  revert st. induction fuel as [|fuel IH]; intros st; simpl.
  - destruct (done st) eqn:Hd; [|discriminate].
    intros [= <-]. exists 0%nat. repeat split; auto. intros m st_m Hm. lia.
  - destruct (done st) eqn:Hd.
    + intros [= <-]. exists 0%nat. repeat split; auto. intros m st_m Hm. lia.
    + destruct (hbody ts st) as [st1|e] eqn:Hb; [|discriminate].
      intros Hw. apply IH in Hw as (N & Hs & Hdone & Hmin).
      exists (S N). rewrite steps_S_front, Hb. split; [done|]. split; [done|].
      intros [|m] st_m Hm Hsm.
      * simpl in Hsm. by injection Hsm as <-.
      * rewrite steps_S_front, Hb in Hsm. apply (Hmin m); [lia|done].
Qed.

Lemma dones_all_false (ts : list Skill) (st0 : hstate) (n : nat) (st : hstate) :
  ep_dones st0 = [] →
  hsteps n ts st0 = Ok st →
  (∀ (m : nat) st_m, (m ≤ n)%nat → hsteps m ts st0 = Ok st_m → done st_m = false) →
  ep_dones st = replicate n false.
Proof.
  intros H0. revert st. induction n as [|n IH]; intros st Hs Hall; simpl in Hs.
  - by injection Hs as <-.
  - inv_bind Hs. pose proof (Hall (S n) st (Nat.le_refl _)) as Hd.
    simpl in Hd. rewrite Ha in Hd. specialize (Hd Hs).
    apply body_appends in Hs as (_ & _ & _ & _ & _ & -> & _).
    rewrite (IH a Ha); [|intros m st_m Hm; apply Hall; lia].
    rewrite Hd. clear. induction n as [|n IH]; simpl; [done|by rewrite IH].
Qed.

(** X21: in the histories a rollout returns, [ep_dones] is [False] for every
    step but the last and [True] for the last, and [ep_timesteps] counts
    [0, 1, ..., N]. *)
Theorem X21_returned_dones_and_timesteps (fuel : nat) (w : W)
    (source_skills : list Skill) (lang : Lang) (result : Result) :
  evaluate_comde C interval oracle fuel w source_skills lang = Some (Ok result) →
  ∃ N : nat, (1 ≤ N)%nat ∧
    r_ep_dones result = replicate (N - 1) false ++ [true] ∧
    r_ep_timesteps result = Z.of_nat <$> seq 0 (S N).
Proof.
  unfold evaluate_comde.
  destruct (setup C w source_skills lang) as [[ts st0]|e] eqn:Hsetup; [|discriminate].
  destruct (while_not_done C interval oracle fuel ts st0) as [[stN|e]|] eqn:Hw;
    [|discriminate..].
  intros [= <-]. simpl.
  apply history_setup in Hsetup as (Hh & Hd0 & _ & _).
  apply while_not_done_first in Hw as (N & Hs & Hd & Hmin).
  destruct N as [|N].
  { simpl in Hs. injection Hs as <-. congruence. }
  exists (S N). split; [lia|]. split.
  - simpl in Hs. inv_bind Hs.
    pose proof (dones_all_false ts st0 N a) as Hfalse.
    apply body_appends in Hs as (_ & _ & _ & _ & _ & -> & _).
    rewrite Hd. replace (S N - 1)%nat with N by lia. f_equal.
    apply Hfalse; [|done|].
    + destruct Hh. by apply nil_length_inv.
    + intros m st_m Hm. apply Hmin. lia.
  - pose proof (history_steps _ _ _ _ _ _ _ _ Hh Hs) as HN.
    rewrite Nat.add_0_r in HN. by destruct HN.
Qed.

End RolloutHistories.

(** ** The rollout loop: which skill is executed *)

Section RolloutSkills.
Import Rollout Vocabulary.
Context {W Obs Row Act Skill Lang Reward Info : Type}.
Variable C : @Collaborators W Obs Row Act Skill Lang Reward Info.
Variable interval : Z.

Abbreviation sstate := (@Rollout.State W Obs Act Skill Reward Info).

Lemma skill_at_nonneg (ts : list Skill) (i : Z) (sk : Skill) :
  0 <= i → skill_at ts i = Ok sk → ts !! Z.to_nat i = Some sk.
Proof.
  intros Hi. unfold skill_at.
  destruct (Z.ltb_spec i 0) as [?|_]; [lia|].
  destruct ((0 <=? i) && (i <? Z.of_nat (length ts))); [|discriminate].
  by rewrite getitem_Ok.
Qed.

Lemma advance_skill_matches (oracle : bool) (ts : list Skill) (st : sstate)
    w cur sk :
  skill_matches ts st →
  advance_skill C interval oracle ts st = Ok (w, cur, sk) →
  skill_at ts cur = Ok sk.
Proof.
  intros [Hr Hsk]. unfold advance_skill. intros H.
  repeat match type of H with
  | (if ?b then _ else _) = _ => destruct b
  | (let '(_, _) := ?p in _) = _ => destruct p
  | _ ≫= _ = Ok _ => inv_bind H
  end; try discriminate; injection H as _ <- <-; done.
Qed.

Lemma body_skill_matches (oracle : bool) (ts : list Skill) (st st' : sstate) :
  skill_matches ts st → loop_body C interval oracle ts st = Ok st' →
  skill_matches ts st'.
Proof.
  intros Hm Hb. split.
  - destruct Hm as [Hr _]. by destruct (body_index_range _ _ _ _ _ _ Hr Hb).
  - apply loop_body_Ok in Hb
      as (w & cur & sk & input & w1 & a & w2 & o & r & d & i & Hadv & _ & _ & _ & ->).
    simpl. by eapply advance_skill_matches.
Qed.

Lemma skills_in_order_snoc (ts skills : list Skill) (cur cur' : Z) (sk : Skill) :
  skills_in_order ts skills cur →
  cur <= cur' <= cur + 1 → 0 <= cur' → ts !! Z.to_nat cur' = Some sk →
  skills_in_order ts (skills ++ [sk]) cur'.
Proof.
  intros (idxs & Hlen & H0 & Hlast & Hstep & Hat) Hcur Hpos Hsk.
  exists (idxs ++ [cur']). split; [by rewrite !length_app, Hlen|]. split.
  { by apply lookup_app_l_Some. }
  split; [apply last_snoc|]. split.
  - intros t a b Ha Hb.
    destruct (decide (S t < length idxs)%nat) as [Hlt|Hge].
    + rewrite lookup_app_l in Ha, Hb by lia. by apply (Hstep t).
    + rewrite lookup_app_r in Hb by lia.
      assert (S t = length idxs) as Heq.
      { apply lookup_lt_Some in Hb. simpl in Hb.
        apply lookup_lt_Some in Ha. rewrite length_app in Ha. simpl in *. lia. }
      rewrite Heq, Nat.sub_diag in Hb. injection Hb as <-.
      rewrite lookup_app_l in Ha by lia.
      rewrite last_lookup in Hlast.
      replace (pred (length idxs)) with t in Hlast by lia.
      rewrite Ha in Hlast. injection Hlast as ->. done.
  - intros t i Hi.
    destruct (decide (t < length idxs)%nat) as [Hlt|Hge].
    + rewrite lookup_app_l in Hi by done.
      destruct (Hat t i Hi) as (? & Heq & ?). split; [done|]. split; [|done].
      rewrite lookup_app_l by lia. done.
    + rewrite lookup_app_r in Hi by lia.
      assert (t = length idxs) as Heq.
      { apply lookup_lt_Some in Hi. simpl in Hi. lia. }
      rewrite Heq, Nat.sub_diag in Hi. injection Hi as <-.
      split; [done|]. rewrite Heq, Hlen, lookup_app_r, Nat.sub_diag by lia.
      simpl. rewrite Hsk. eauto.
Qed.

Lemma steps_skills_in_order (oracle : bool) (ts : list Skill) (n : nat)
    (st st' : sstate) :
  skill_matches ts st →
  skills_in_order ts (ep_skills st) (cur_skill_pos st) →
  iterations C interval oracle n ts st = Ok st' →
  skill_matches ts st' ∧ skills_in_order ts (ep_skills st') (cur_skill_pos st').
Proof.
  intros Hm0 Hord0. revert st'. induction n as [|n IH]; intros st' Hs; simpl in Hs.
  - by injection Hs as <-.
  - inv_bind Hs. destruct (IH a Ha) as [Hm Hord].
    pose proof (body_skill_matches _ _ _ _ Hm Hs) as [Hr' Hsk'].
    split; [done|].
    destruct Hm as [Hr _].
    apply skill_at_nonneg in Hsk'; [|unfold index_in_range in Hr'; lia].
    apply loop_body_Ok in Hs
      as (w0 & cur & sk & input & w1 & a1 & w2 & o & r & d & i & Hadv & _ & _ & _ & ->).
    simpl in *. apply (skills_in_order_snoc _ _ (cur_skill_pos a)); auto.
    + apply (advance_skill_range _ _ _ _ _ _ _ _ Hr) in Hadv. lia.
    + unfold index_in_range in Hr'. simpl in Hr'. lia.
Qed.

(** X22: whatever the translator predicts and in either mode, the skills
    the loop records are source skills taken in order: the first is
    [source_skills[0]], each next one is the same source skill or the one
    after it, and none is skipped or revisited; the skill variable is the
    source skill at [cur_skill_pos]. *)
Theorem X22_skills_follow_source_order (oracle : bool) (w : W)
    (source_skills : list Skill) (lang : Lang) (ts : list Skill)
    (st0 : sstate) (n : nat) (st : sstate) :
  setup C w source_skills lang = Ok (ts, st0) →
  iterations C interval oracle n ts st0 = Ok st →
  skills_in_order source_skills (ep_skills st) (cur_skill_pos st) ∧
  source_skills !! Z.to_nat (cur_skill_pos st) = Some (skill st).
Proof.
  intros Hsetup.
  pose proof (setup_index_range _ _ _ _ _ _ Hsetup) as Hr0.
  pose proof (setup_reads_source_skills _ _ _ _ _ _ Hsetup) as [-> Hsk0].
  pose proof (history_setup _ _ _ _ _ _ Hsetup) as (_ & _ & _ & Hcur0).
  assert (Hm0 : skill_matches source_skills st0).
  { split; [done|by rewrite Hcur0]. }
  assert (Hord0 : skills_in_order source_skills (ep_skills st0) (cur_skill_pos st0)).
  { unfold setup in Hsetup.
    destruct (seq2seq_predict C w source_skills lang) as [w1 predicted].
    destruct (env_reset C w1) as [w2 o].
    destruct (skill_at source_skills 0) as [sk|] eqn:Hsk; [|discriminate].
    injection Hsetup as <-. simpl.
    apply skill_at_nonneg in Hsk; [|lia].
    exists [0]. split; [done|]. split; [done|]. split; [done|]. split.
    - intros [|t] x y Hx Hy; simpl in *; done.
    - intros [|t] i Hi; simpl in *; [|done]. injection Hi as <-.
      split; [lia|]. simpl. rewrite Hsk. eauto. }
  intros Hs.
  destruct (steps_skills_in_order _ _ _ _ _ Hm0 Hord0 Hs) as [[Hr Hsk] Hord].
  split; [done|].
  apply skill_at_nonneg in Hsk; [done|]. unfold index_in_range in Hr. lia.
Qed.

End RolloutSkills.

(** ** The rollout loop: the two ways of advancing the skill *)

Section RolloutModes.
Import Rollout Vocabulary.
Context {W Obs Row Act Skill Lang Reward Info : Type}.
Variable C : @Collaborators W Obs Row Act Skill Lang Reward Info.

Abbreviation mstate := (@Rollout.State W Obs Act Skill Reward Info).

Lemma while_ext (C1 C2 : @Collaborators W Obs Row Act Skill Lang Reward Info)
    (i1 i2 : Z) (o1 o2 : bool) (ts : list Skill) :
  (∀ st : mstate, loop_body C1 i1 o1 ts st = loop_body C2 i2 o2 ts st) →
  ∀ fuel st, while_not_done C1 i1 o1 fuel ts st = while_not_done C2 i2 o2 fuel ts st.
Proof.
  intros Hbody. induction fuel as [|fuel IH]; intros st; simpl; [done|].
  destruct (done st); [done|]. rewrite Hbody.
  destruct (loop_body C2 i2 o2 ts st); [apply IH|done].
Qed.

(** X23: each mode ignores the signal of the other.  In oracle mode the
    rollout is the same whatever the termination detector and
    [termination_pred_interval] are; in learned mode it is the same whatever
    counts as a positive reward. *)
Theorem X23_modes_use_one_signal (interval : Z) (fuel : nat) (w : W)
    (source_skills : list Skill) (lang : Lang) :
  (∀ predict interval',
     evaluate_comde (with_termination C predict) interval' true fuel w
       source_skills lang
     = evaluate_comde C interval true fuel w source_skills lang) ∧
  (∀ positive,
     evaluate_comde (with_reward_pos C positive) interval false fuel w
       source_skills lang
     = evaluate_comde C interval false fuel w source_skills lang).
Proof.
  split.
  - intros predict interval'. unfold evaluate_comde.
    change (setup (with_termination C predict) w source_skills lang)
      with (setup C w source_skills lang).
    destruct (setup C w source_skills lang) as [[ts st0]|e]; [|done].
    rewrite (while_ext (with_termination C predict) C interval' interval true true ts);
      [|done].
    by destruct (while_not_done C interval true fuel ts st0) as [[]|].
  - intros positive. unfold evaluate_comde.
    change (setup (with_reward_pos C positive) w source_skills lang)
      with (setup C w source_skills lang).
    destruct (setup C w source_skills lang) as [[ts st0]|e]; [|done].
    rewrite (while_ext (with_reward_pos C positive) C interval interval false false ts);
      [|done].
    by destruct (while_not_done C interval false fuel ts st0) as [[]|].
Qed.

Lemma advance_skill_learned (interval : Z) (ts : list Skill) (st : mstate)
    w cur sk :
  advance_skill C interval false ts st = Ok (w, cur, sk) →
  interval ≠ 0 ∧
  (cur = cur_skill_pos st ∨
   ((timestep st - 1) `mod` interval = 0 ∧
    cur = Z.min (cur_skill_pos st + 1) (Z.of_nat (length ts) - 1))).
Proof.
  unfold advance_skill. intros H.
  destruct (decide (interval = 0)) as [|Hi]; [discriminate|]. split; [done|].
  destruct (decide ((timestep st - 1) `mod` interval = 0)) as [Hmod|];
    [|left; congruence].
  destruct (termination_predict C _ _ _ _) as [w' []].
  - inv_bind H. right. split; [done|]. congruence.
  - left. congruence.
Qed.

(** X24: in learned mode the detector is polled only on the iterations whose
    timestep [t] has [(t - 1) % termination_pred_interval == 0].  With an
    interval of 2 or more the skill index after [n] iterations is therefore
    at most [(n + interval - 2) / interval]: it cannot advance during the
    first iteration, nor more than once in [interval] iterations. *)
Theorem X24_learned_mode_cadence (interval : Z) (w : W)
    (source_skills : list Skill) (lang : Lang) (ts : list Skill)
    (st0 : mstate) (n : nat) (st : mstate) :
  2 <= interval →
  setup C w source_skills lang = Ok (ts, st0) →
  iterations C interval false n ts st0 = Ok st →
  0 <= cur_skill_pos st <= (Z.of_nat n + interval - 2) `div` interval.
Proof.
  intros Hi Hsetup.
  pose proof (history_setup _ _ _ _ _ _ Hsetup) as (Hh & _ & _ & Hcur0).
  pose proof (setup_index_range _ _ _ _ _ _ Hsetup) as Hr0.
  revert st. induction n as [|n IH]; intros st Hs; simpl in Hs.
  - injection Hs as <-. rewrite Hcur0. split; [done|].
    apply Z.div_pos; lia.
  - inv_bind Hs. specialize (IH a Ha).
    pose proof (history_steps _ _ _ _ _ _ _ _ Hh Ha) as Hhist.
    rewrite Nat.add_0_r in Hhist. pose proof (h_timestep _ _ _ Hhist) as Ht.
    destruct (steps_index_range _ _ _ _ _ _ _ Hr0 Ha) as [Hr _].
    destruct (body_index_range _ _ _ _ _ _ Hr Hs) as [Hr' _].
    apply loop_body_Ok in Hs
      as (w0 & cur & sk & input & w1 & a1 & w2 & o & r & d & i & Hadv & _ & _ & _ & ->).
    simpl in *. apply advance_skill_learned in Hadv as [_ Hadv].
    unfold index_in_range in Hr'. simpl in Hr'. split; [lia|].
    assert ((Z.of_nat n + interval - 2) `div` interval
            <= (Z.of_nat (S n) + interval - 2) `div` interval) as Hmono.
    { apply Z.div_le_mono; lia. }
    destruct Hadv as [->|[Hmod ->]]; [lia|].
    rewrite Ht in Hmod.
    assert ((Z.of_nat (S n) + interval - 2) `div` interval
            = (Z.of_nat n + interval - 2) `div` interval + 1) as ->.
    { apply Z.mod_divide in Hmod as [q Hq]; [|lia].
      replace (Z.of_nat (S n) + interval - 2) with ((q + 1) * interval) by lia.
      replace (Z.of_nat n + interval - 2) with (q * interval + (interval - 1)) by lia.
      rewrite Z.div_mul by lia.
      rewrite Z.div_add_l by lia.
      rewrite (Z.div_small (interval - 1)) by lia. lia. }
    lia.
Qed.

End RolloutModes.

(** ** The scripted rollout as an instance *)

Section ScriptedCoverage.
Import Rollout Vocabulary.

Lemma X17_zero_interval_witness :
  evaluate_comde (Scripted.collaborators 7 3 false) 0 false 1 0%nat [1; 2; 3] ()
  = Some (Raise ZeroDivisionError).
Proof.
  apply (X17_zero_interval (Scripted.collaborators 7 3 false) 0%nat [1; 2; 3] ()
           0%nat).
  discriminate.
Defined.


Lemma X19_histories_append_only_witness :
  ep_observations (Scripted.state_after_one 7)
    `prefix_of` ep_observations Scripted.state_after_three ∧
  ep_actions (Scripted.state_after_one 7)
    `prefix_of` ep_actions Scripted.state_after_three ∧
  ep_skills (Scripted.state_after_one 7)
    `prefix_of` ep_skills Scripted.state_after_three ∧
  ep_timesteps (Scripted.state_after_one 7)
    `prefix_of` ep_timesteps Scripted.state_after_three ∧
  ep_rewards (Scripted.state_after_one 7)
    `prefix_of` ep_rewards Scripted.state_after_three ∧
  ep_dones (Scripted.state_after_one 7)
    `prefix_of` ep_dones Scripted.state_after_three ∧
  ep_infos (Scripted.state_after_one 7)
    `prefix_of` ep_infos Scripted.state_after_three.
Proof.
  apply (X19_histories_append_only (Scripted.collaborators 7 3 false) 10 true
           [1; 2; 3] (Scripted.initial_state 7) 1 3).
  - lia.
  - reflexivity.
  - reflexivity.
Defined.

Lemma X20_first_obs_of_skill_is_reset_observation_witness :
  first_obs_of_skill Scripted.state_after_three
  = (env_reset (Scripted.collaborators 7 3 false)
       (seq2seq_predict (Scripted.collaborators 7 3 false) 0%nat [1; 2; 3] ()).1).2 ∧
  ep_observations Scripted.state_after_three !! 0%nat
  = Some (first_obs_of_skill Scripted.state_after_three).
Proof.
  apply (X20_first_obs_of_skill_is_reset_observation
           (Scripted.collaborators 7 3 false) 10 true 0%nat [1; 2; 3] ()
           [1; 2; 3] (Scripted.initial_state 7) 3).
  - reflexivity.
  - reflexivity.
Defined.

Lemma X21_returned_dones_and_timesteps_witness :
  ∃ N : nat, (1 ≤ N)%nat ∧
    r_ep_dones (result_of (Scripted.collaborators 7 3 false)
                  Scripted.state_after_three)
    = replicate (N - 1) false ++ [true] ∧
    r_ep_timesteps (result_of (Scripted.collaborators 7 3 false)
                      Scripted.state_after_three)
    = Z.of_nat <$> seq 0 (S N).
Proof.
  apply (X21_returned_dones_and_timesteps (Scripted.collaborators 7 3 false) 10
           true 5 0%nat [1; 2; 3] ()).
  reflexivity.
Defined.

Lemma X22_skills_follow_source_order_witness :
  skills_in_order [1; 2; 3] (ep_skills Scripted.state_after_three)
    (cur_skill_pos Scripted.state_after_three) ∧
  [1; 2; 3] !! Z.to_nat (cur_skill_pos Scripted.state_after_three)
  = Some (skill Scripted.state_after_three).
Proof.
  apply (X22_skills_follow_source_order (Scripted.collaborators 7 3 false) 10
           true 0%nat [1; 2; 3] () [1; 2; 3] (Scripted.initial_state 7) 3).
  - reflexivity.
  - reflexivity.
Defined.

(** With a detector that fires whenever it is polled and an interval of 2,
    the index is 1 after three iterations: the bound of the cadence is
    attained. *)
Lemma X24_learned_mode_cadence_witness :
  ∃ st,
    iterations
      (with_termination (Scripted.collaborators 7 9 false) (λ w _ _ _, (w, true)))
      2 false 3 [1; 2; 3] (Scripted.initial_state 7) = Ok st ∧
    cur_skill_pos st = 1 ∧
    0 <= cur_skill_pos st <= (Z.of_nat 3 + 2 - 2) `div` 2.
Proof.
  eexists. split; [reflexivity|]. split; [reflexivity|].
  apply (X24_learned_mode_cadence
           (with_termination (Scripted.collaborators 7 9 false)
              (λ w _ _ _, (w, true)))
           2 0%nat [1; 2; 3] () [1; 2; 3] (Scripted.initial_state 7) 3).
  - lia.
  - reflexivity.
  - reflexivity.
Defined.

End ScriptedCoverage.
